(** * MindWell AI: the camera, streaming and emotion-aggregation pipeline

    A shallow embedding of [frontend/js/camera.js] (class [CameraManager])
    and the properties of its capture life cycle, its periodic send loop,
    its bounded history of detected emotions and its mood-entry
    submission.

    The class mutates its own fields and a number of browser objects
    (the camera, the WebSocket, timers, the page).  The embedding threads
    one explicit state, [World], through every method: the fields of the
    [CameraManager] instance plus the part of the browser the methods act on.
    Asynchronous methods are split at their [await]: one function up to the
    suspension, one for the continuation, which receives the outcome of the
    awaited operation as an argument. *)

From Stdlib Require Import QArith Qround.
From stdpp Require Import gmap strings list fin_maps.

Open Scope nat_scope.

(** ** Data model *)

(** [WebSocket.readyState]. *)
Inductive ReadyState := CONNECTING | OPEN | CLOSING | CLOSED.

#[global] Instance ReadyState_eq_dec : EqDecision ReadyState.
Proof. solve_decision. Defined.

(** One element of [this.detectedEmotions]: the object literal
    [{ emotion, confidence, timestamp }] built by [storeEmotion].
    [confidence] is the JSON number of the inbound message, kept as a
    rational; it is stored and never computed with.  [timestamp] is the
    instant of [new Date().toISOString()] in milliseconds since the epoch:
    the ISO string has millisecond precision and [new Date(e.timestamp)]
    reads the same instant back. *)
Record EmotionEntry := {
  emotion : string;
  confidence : Q;
  timestamp : Z
}.

(** The calendar-day text of an instant in the local time zone,
    [new Date(ms).toDateString()], numbered: two instants get the same
    number exactly when their texts are equal.  The time zone is a
    property of the machine the page runs on, hence a class. *)
Class Locale := { toDateString : Z → Z }.

(** The locale of a machine set to UTC: days of 86 400 000 ms. *)
Definition utc : Locale := {| toDateString ms := (ms `div` 86400000)%Z |}.

(** The fields of a [CameraManager] instance that the methods read and
    write.  A [MediaStream] is known by a number; the socket by its
    [readyState], [None] standing for [this.ws === null]. *)
Record CameraManager := {
  stream : option nat;
  ws : option ReadyState;
  isStreaming : bool;
  detectedEmotions : list EmotionEntry
}.

(** The value held under a key of the [emotionCounts] object of
    [updateTodayEmotions]: a number, or the text that [+ 1] produces when
    its left operand is not a number. *)
Inductive Tally := Num (n : nat) | Text.

(** What [updateCameraUI] last set the three buttons to. *)
Inductive CameraUI := ui_initial | ui_started | ui_stopped.

(** The body of the [POST /mood-entry] request of [saveMoodEntry]. *)
Record MoodEntry := {
  entry_emotion : string;
  intensity : Z;
  notes_time : Z;
  entry_timestamp : Z
}.

(** The HTTP requests issued through [fetch]. *)
Inductive Request :=
  | GetRecommendations (label : string)
  | PostAnalyzeEmotion
  | PostMoodEntry (body : MoodEntry)
  | GetMoodAnalytics.

(** The message of [showNotification]: the only one the class builds is
    [`Mood captured: ${emotion} (${percent}% confidence)`]. *)
Inductive Notification := MoodCaptured (emotion : string) (percent : Z).

(** How an awaited [fetch] ends: the promise resolves with a response
    whose [ok] flag is given, or it rejects (no response at all). *)
Inductive FetchOutcome := Resolved (ok : bool) | Rejected.

(** The state the methods act on: the instance and, of the browser,
    - [liveStreams]: the streams obtained from [getUserMedia] whose tracks
      have not been stopped (the camera is held as long as one is live);
    - [getUserMediaCalls]: how many times the camera was requested;
    - [timers]: the pending [setTimeout(sendFrame, 100)] callbacks;
    - [framesSent]: the [ws.send] calls made so far;
    - [cameraUI]: the state of the buttons;
    - [cameraErrors]: the messages shown by [showCameraError];
    - [notifications]: the messages shown by [showNotification];
    - [console]: the lines written with [console.log] and [console.error];
    - [fetches]: the HTTP requests issued, oldest first;
    - [todayEmotions]: the rows last rendered by [updateTodayEmotions],
      that is, its [emotionCounts] object (row order is not modelled). *)
Record World := {
  this : CameraManager;
  liveStreams : list nat;
  getUserMediaCalls : nat;
  timers : nat;
  framesSent : nat;
  cameraUI : CameraUI;
  cameraErrors : list string;
  notifications : list Notification;
  console : list string;
  fetches : list Request;
  todayEmotions : gmap string Tally
}.

(** Field updates. *)
Definition set_stream (s : option nat) (c : CameraManager) : CameraManager :=
  {| stream := s; ws := ws c; isStreaming := isStreaming c;
     detectedEmotions := detectedEmotions c |}.

Definition set_ws (r : option ReadyState) (c : CameraManager) : CameraManager :=
  {| stream := stream c; ws := r; isStreaming := isStreaming c;
     detectedEmotions := detectedEmotions c |}.

Definition set_isStreaming (b : bool) (c : CameraManager) : CameraManager :=
  {| stream := stream c; ws := ws c; isStreaming := b;
     detectedEmotions := detectedEmotions c |}.

Definition set_detectedEmotions (l : list EmotionEntry) (c : CameraManager)
  : CameraManager :=
  {| stream := stream c; ws := ws c; isStreaming := isStreaming c;
     detectedEmotions := l |}.

Definition on_this (f : CameraManager → CameraManager) (w : World) : World :=
  {| this := f (this w); liveStreams := liveStreams w;
     getUserMediaCalls := getUserMediaCalls w; timers := timers w;
     framesSent := framesSent w; cameraUI := cameraUI w;
     cameraErrors := cameraErrors w; notifications := notifications w;
     console := console w; fetches := fetches w;
     todayEmotions := todayEmotions w |}.

Definition set_liveStreams (l : list nat) (w : World) : World :=
  {| this := this w; liveStreams := l;
     getUserMediaCalls := getUserMediaCalls w; timers := timers w;
     framesSent := framesSent w; cameraUI := cameraUI w;
     cameraErrors := cameraErrors w; notifications := notifications w;
     console := console w; fetches := fetches w;
     todayEmotions := todayEmotions w |}.

Definition set_getUserMediaCalls (n : nat) (w : World) : World :=
  {| this := this w; liveStreams := liveStreams w;
     getUserMediaCalls := n; timers := timers w;
     framesSent := framesSent w; cameraUI := cameraUI w;
     cameraErrors := cameraErrors w; notifications := notifications w;
     console := console w; fetches := fetches w;
     todayEmotions := todayEmotions w |}.

Definition set_timers (n : nat) (w : World) : World :=
  {| this := this w; liveStreams := liveStreams w;
     getUserMediaCalls := getUserMediaCalls w; timers := n;
     framesSent := framesSent w; cameraUI := cameraUI w;
     cameraErrors := cameraErrors w; notifications := notifications w;
     console := console w; fetches := fetches w;
     todayEmotions := todayEmotions w |}.

Definition set_framesSent (n : nat) (w : World) : World :=
  {| this := this w; liveStreams := liveStreams w;
     getUserMediaCalls := getUserMediaCalls w; timers := timers w;
     framesSent := n; cameraUI := cameraUI w;
     cameraErrors := cameraErrors w; notifications := notifications w;
     console := console w; fetches := fetches w;
     todayEmotions := todayEmotions w |}.

Definition set_cameraUI (u : CameraUI) (w : World) : World :=
  {| this := this w; liveStreams := liveStreams w;
     getUserMediaCalls := getUserMediaCalls w; timers := timers w;
     framesSent := framesSent w; cameraUI := u;
     cameraErrors := cameraErrors w; notifications := notifications w;
     console := console w; fetches := fetches w;
     todayEmotions := todayEmotions w |}.

Definition set_cameraErrors (l : list string) (w : World) : World :=
  {| this := this w; liveStreams := liveStreams w;
     getUserMediaCalls := getUserMediaCalls w; timers := timers w;
     framesSent := framesSent w; cameraUI := cameraUI w;
     cameraErrors := l; notifications := notifications w;
     console := console w; fetches := fetches w;
     todayEmotions := todayEmotions w |}.

Definition set_notifications (l : list Notification) (w : World) : World :=
  {| this := this w; liveStreams := liveStreams w;
     getUserMediaCalls := getUserMediaCalls w; timers := timers w;
     framesSent := framesSent w; cameraUI := cameraUI w;
     cameraErrors := cameraErrors w; notifications := l;
     console := console w; fetches := fetches w;
     todayEmotions := todayEmotions w |}.

Definition set_console (l : list string) (w : World) : World :=
  {| this := this w; liveStreams := liveStreams w;
     getUserMediaCalls := getUserMediaCalls w; timers := timers w;
     framesSent := framesSent w; cameraUI := cameraUI w;
     cameraErrors := cameraErrors w; notifications := notifications w;
     console := l; fetches := fetches w;
     todayEmotions := todayEmotions w |}.

Definition set_fetches (l : list Request) (w : World) : World :=
  {| this := this w; liveStreams := liveStreams w;
     getUserMediaCalls := getUserMediaCalls w; timers := timers w;
     framesSent := framesSent w; cameraUI := cameraUI w;
     cameraErrors := cameraErrors w; notifications := notifications w;
     console := console w; fetches := l;
     todayEmotions := todayEmotions w |}.

Definition set_todayEmotions (m : gmap string Tally) (w : World) : World :=
  {| this := this w; liveStreams := liveStreams w;
     getUserMediaCalls := getUserMediaCalls w; timers := timers w;
     framesSent := framesSent w; cameraUI := cameraUI w;
     cameraErrors := cameraErrors w; notifications := notifications w;
     console := console w; fetches := fetches w;
     todayEmotions := m |}.

(** ** The emotion history: [storeEmotion] and [updateTodayEmotions] *)

(** The recognised labels: the keys of [iconMap] and [emojiMap]. *)
Definition EmotionLabels : list string :=
  ["Happy"; "Sad"; "Angry"; "Fear"; "Surprise"; "Neutral"; "Disgust"].

(** [emotionCounts] is created by the literal [{}], so it inherits from
    [Object.prototype]: reading one of these keys on a fresh object does not
    give [undefined] but the inherited function (or, for [__proto__], the
    prototype itself). *)
Definition Object_prototype_keys : list string :=
  ["constructor"; "__defineGetter__"; "__defineSetter__"; "hasOwnProperty";
   "__lookupGetter__"; "__lookupSetter__"; "isPrototypeOf";
   "propertyIsEnumerable"; "toString"; "valueOf"; "__proto__";
   "toLocaleString"].

(** One round of the [forEach] body,
    [emotionCounts[k] = (emotionCounts[k] || 0) + 1]:
    - an own number [n] becomes [n + 1];
    - an own text is truthy and [+ 1] appends to it: it stays a text;
    - on a key not yet set, [undefined || 0] is [0] and the count is [1],
      unless the key is inherited: the inherited value is truthy, [+ 1]
      turns it into a text, which is stored as an own property;
    - for [__proto__] the assignment goes to the inherited setter, which
      ignores a value that is not an object: nothing is stored. *)
Definition tally (emotionCounts : gmap string Tally) (k : string)
  : gmap string Tally :=
  if decide (k = "__proto__") then emotionCounts
  else match emotionCounts !! k with
       | Some (Num n) => <[k := Num (n + 1)]> emotionCounts
       | Some Text => <[k := Text]> emotionCounts
       | None =>
           if decide (k ∈ Object_prototype_keys)
           then <[k := Text]> emotionCounts
           else <[k := Num 1]> emotionCounts
       end.

(** The local [todayEmotions] of [updateTodayEmotions]: the entries whose
    timestamp falls on the day of [now]. *)
Definition todayEntries `{Locale} (now : Z) (l : list EmotionEntry)
  : list EmotionEntry :=
  let today := toDateString now in
  filter (λ e, toDateString (timestamp e) = today) l.

(** The local [emotionCounts] of [updateTodayEmotions] once the [forEach]
    has run. *)
Definition emotionCounts `{Locale} (now : Z) (l : list EmotionEntry)
  : gmap string Tally :=
  foldl (λ counts e, tally counts (emotion e)) ∅ (todayEntries now l).

(** [updateTodayEmotions()], [now] being the value of its [new Date()]. *)
Definition updateTodayEmotions `{Locale} (now : Z) (w : World) : World :=
  set_todayEmotions (emotionCounts now (detectedEmotions (this w))) w.

(** [push] followed by the conditional [shift] of [storeEmotion]. *)
Definition push_bounded (e : EmotionEntry) (l : list EmotionEntry)
  : list EmotionEntry :=
  let pushed := l ++ [e] in
  if decide (100 < length pushed) then tail pushed else pushed.

(** [storeEmotion(emotion, confidence)]; [now] is the clock reading of its
    own [new Date()], [now'] the one of the [new Date()] in
    [updateTodayEmotions]. *)
Definition storeEmotion `{Locale} (emotion : string) (confidence : Q)
    (now now' : Z) (w : World) : World :=
  let e := {| emotion := emotion; confidence := confidence;
              timestamp := now |} in
  let w1 := on_this (λ c, set_detectedEmotions
                            (push_bounded e (detectedEmotions c)) c) w in
  updateTodayEmotions now' w1.

(** The sum of the numeric counts of an [emotionCounts] object. *)
Definition numeric (t : Tally) : nat :=
  match t with Num n => n | Text => 0 end.

Definition total (m : gmap string Tally) : nat :=
  sum_list (numeric <$> (map_to_list m).*2).

(** ** Page effects *)

Definition console_log (line : string) (w : World) : World :=
  set_console (console w ++ [line]) w.

(** [console.error]: the text given before the error object. *)
Definition console_error (line : string) (w : World) : World :=
  set_console (console w ++ [line]) w.

(** [showCameraError(message)]. *)
Definition showCameraError (message : string) (w : World) : World :=
  set_cameraErrors (cameraErrors w ++ [message]) w.

(** [updateCameraUI(state)]: ['started'] disables the start button and
    enables the other two; any other value does the opposite. *)
Definition updateCameraUI (state : string) (w : World) : World :=
  if decide (state = "started") then set_cameraUI ui_started w
  else set_cameraUI ui_stopped w.

(** ** The controller: construction, start, stop and the send loop *)

(** The world once [new CameraManager()] has returned on a fresh page:
    [setupWebSocket] has created the socket, which is still connecting. *)
Definition new_CameraManager : World :=
  {| this := {| stream := None; ws := Some CONNECTING; isStreaming := false;
                detectedEmotions := [] |};
     liveStreams := []; getUserMediaCalls := 0; timers := 0; framesSent := 0;
     cameraUI := ui_initial; cameraErrors := []; notifications := [];
     console := []; fetches := []; todayEmotions := ∅ |}.

(** The closure [sendFrame] of [startEmotionDetection]: return at once
    unless streaming with an open socket; otherwise send one frame and
    schedule the next call. *)
Definition sendFrame (w : World) : World :=
  if negb (isStreaming (this w)) then w
  else match ws (this w) with
       | None => w
       | Some readyState =>
           if decide (readyState ≠ OPEN) then w
           else set_timers (S (timers w))
                  (set_framesSent (S (framesSent w)) w)
       end.

Definition startEmotionDetection (w : World) : World := sendFrame w.

(** A pending [setTimeout(sendFrame, 100)] comes due. *)
Definition timer_fires (w : World) : World :=
  match timers w with
  | 0 => w
  | S n => sendFrame (set_timers n w)
  end.

(** [startCamera()] up to its [await]: the camera is requested. *)
Definition startCamera_call (w : World) : World :=
  set_getUserMediaCalls (S (getUserMediaCalls w)) w.

(** The rest of [startCamera()]: [getUserMedia] resolved with the stream
    [Some s], whose tracks are live from then on, or rejected ([None]) and
    control went to the [catch] block. *)
Definition startCamera_resume (granted : option nat) (w : World) : World :=
  match granted with
  | Some s =>
      let w := set_liveStreams (s :: liveStreams w) w in
      let w := on_this (set_stream (Some s)) w in
      let w := on_this (set_isStreaming true) w in
      let w := startEmotionDetection w in
      updateCameraUI "started" w
  | None =>
      let w := console_error "Error accessing camera:" w in
      showCameraError "Unable to access camera. Please check permissions." w
  end.

(** A click on the start button: a disabled button dispatches no click. *)
Definition click_start (w : World) : World :=
  match cameraUI w with
  | ui_started => w
  | _ => startCamera_call w
  end.

(** [stopCamera()]. *)
Definition stopCamera (w : World) : World :=
  let w :=
    match stream (this w) with
    | Some s =>
        let w := set_liveStreams (filter (λ s', s' ≠ s) (liveStreams w)) w in
        let w := on_this (set_stream None) w in
        on_this (set_isStreaming false) w
    | None => w
    end in
  let w :=
    match ws (this w) with
    | Some OPEN => on_this (set_ws (Some CLOSING)) w
    | _ => w
    end in
  updateCameraUI "stopped" w.

(** ** The streaming channel *)

(** The handlers installed by [setupWebSocket]. *)
Definition ws_onopen (w : World) : World :=
  console_log "WebSocket connected for emotion streaming" w.

Definition ws_onclose (w : World) : World :=
  console_log "WebSocket disconnected" w.

Definition ws_onerror (w : World) : World :=
  console_error "WebSocket error:" w.

(** [updateRecommendations(emotion)] up to its [await]. *)
Definition updateRecommendations_call (emotion : string) (w : World) : World :=
  set_fetches (fetches w ++ [GetRecommendations emotion]) w.

(** [handleEmotionData(data)], called by [ws.onmessage] with the parsed
    message.  [updateEmotionDisplay] and [addEmotionAnimation] only write
    to the page. *)
Definition handleEmotionData `{Locale} (emotion : string) (confidence : Q)
    (now now' : Z) (w : World) : World :=
  let w := storeEmotion emotion confidence now now' w in
  updateRecommendations_call emotion w.

(** What the browser does to the socket: the connection is established,
    is closed, or fails (a failed connection is closed, then [error] and
    [close] are dispatched). *)
Definition channel_opens (w : World) : World :=
  match ws (this w) with
  | Some CONNECTING => ws_onopen (on_this (set_ws (Some OPEN)) w)
  | _ => w
  end.

Definition channel_closes (w : World) : World :=
  match ws (this w) with
  | None | Some CLOSED => w
  | Some _ => ws_onclose (on_this (set_ws (Some CLOSED)) w)
  end.

Definition channel_fails (w : World) : World :=
  match ws (this w) with
  | None | Some CLOSED => w
  | Some _ => ws_onclose (ws_onerror (on_this (set_ws (Some CLOSED)) w))
  end.

(** ** Saving a mood entry *)

(** [Math.round]: the nearest integer, halves going up. *)
Definition Math_round (x : Q) : Z := Qfloor (x + (1 # 2))%Q.

(** [saveMoodEntry(emotion, confidence)] up to its [await]: the request is
    issued.  [now] and [now'] are the two clock readings of the body. *)
Definition saveMoodEntry_call (emotion : string) (confidence : Q)
    (now now' : Z) (w : World) : World :=
  let body := {| entry_emotion := emotion;
                 intensity := Math_round (confidence * 100)%Q;
                 notes_time := now;
                 entry_timestamp := now' |} in
  set_fetches (fetches w ++ [PostMoodEntry body]) w.

(** [loadDashboard()] of the application object, up to its [await]. *)
Definition loadDashboard_call (w : World) : World :=
  set_fetches (fetches w ++ [GetMoodAnalytics]) w.

(** The rest of [saveMoodEntry]: the outcome of the request, and
    [mindWellApp], the [currentSection] of [window.mindWellApp] if that
    object exists. *)
Definition saveMoodEntry_resume (outcome : FetchOutcome)
    (mindWellApp : option string) (w : World) : World :=
  match outcome with
  | Resolved true =>
      match mindWellApp with
      | Some currentSection =>
          if decide (currentSection = "dashboard") then loadDashboard_call w
          else w
      | None => w
      end
  | Resolved false => w
  | Rejected => console_error "Error saving mood entry:" w
  end.

(** [showNotification(message)]: shown through [window.mindWellApp] when
    that object exists ([app] tells whether it does). *)
Definition showNotification (message : Notification) (app : bool)
    (w : World) : World :=
  if app then set_notifications (notifications w ++ [message]) w else w.

(** [captureMood()]: refused with an error message unless streaming;
    otherwise the frame is drawn and [toBlob] is asked to call back. *)
Definition captureMood (w : World) : World :=
  if negb (isStreaming (this w))
  then showCameraError "Please start the camera first" w
  else w.

(** The [toBlob] callback up to its first [await]: the image is posted. *)
Definition captureMood_blob (w : World) : World :=
  set_fetches (fetches w ++ [PostAnalyzeEmotion]) w.

(** The callback once the answer [{ emotion, confidence }] is parsed: it
    calls [saveMoodEntry]. *)
Definition captureMood_analyzed (emotion : string) (confidence : Q)
    (now now' : Z) (w : World) : World :=
  saveMoodEntry_call emotion confidence now now' w.

(** The callback after [await this.saveMoodEntry(...)]. *)
Definition captureMood_saved (emotion : string) (confidence : Q)
    (app : bool) (w : World) : World :=
  showNotification
    (MoodCaptured emotion (Math_round (confidence * 100)%Q)) app w.

(** ** Runs *)

(** What can happen to a page, one event at a time. *)
Inductive Event :=
  | StartCamera
  | CameraGranted (s : nat)
  | CameraDenied
  | StopCamera
  | TimerFires
  | ChannelOpens
  | ChannelCloses
  | ChannelFails
  | Message (emotion : string) (confidence : Q) (now now' : Z)
  | CaptureMood
  | BlobReady
  | EmotionAnalyzed (emotion : string) (confidence : Q) (now now' : Z)
  | MoodEntryAnswered (outcome : FetchOutcome) (mindWellApp : option string)
  | MoodEntrySaved (emotion : string) (confidence : Q) (app : bool).

Definition step `{Locale} (w : World) (ev : Event) : World :=
  match ev with
  | StartCamera => startCamera_call w
  | CameraGranted s => startCamera_resume (Some s) w
  | CameraDenied => startCamera_resume None w
  | StopCamera => stopCamera w
  | TimerFires => timer_fires w
  | ChannelOpens => channel_opens w
  | ChannelCloses => channel_closes w
  | ChannelFails => channel_fails w
  | Message emotion confidence now now' =>
      handleEmotionData emotion confidence now now' w
  | CaptureMood => captureMood w
  | BlobReady => captureMood_blob w
  | EmotionAnalyzed emotion confidence now now' =>
      captureMood_analyzed emotion confidence now now' w
  | MoodEntryAnswered outcome mindWellApp =>
      saveMoodEntry_resume outcome mindWellApp w
  | MoodEntrySaved emotion confidence app =>
      captureMood_saved emotion confidence app w
  end.

Definition run `{Locale} (evs : list Event) (w : World) : World :=
  foldl step w evs.

(** The entries that the messages of a run hand to [storeEmotion], in
    order of arrival. *)
Definition recorded (evs : list Event) : list EmotionEntry :=
  omap (λ ev, match ev with
              | Message emotion confidence now _ =>
                  Some {| emotion := emotion; confidence := confidence;
                          timestamp := now |}
              | _ => None
              end) evs.

(** The last [n] elements of a list. *)
Definition last_n {A} (n : nat) (l : list A) : list A :=
  drop (length l - n) l.

(** [n] messages, numbered from 1, the [i]-th one read off the clock at
    instant [i]. *)
Definition numbered_messages (label : nat → string) (conf : nat → Q)
    (n : nat) : list Event :=
  (λ i, Message (label i) (conf i) (Z.of_nat i) (Z.of_nat i)) <$> seq 1 n.

(** ** Measures used in the statements *)

(** A label that is not a key every object inherits. *)
Definition ordinary (k : string) : Prop := k ∉ Object_prototype_keys.

(** The number of entries of the day of [now] that carry the label [k]. *)
Definition label_count `{Locale} (now : Z) (k : string)
    (l : list EmotionEntry) : nat :=
  length (filter (λ e, emotion e = k) (todayEntries now l)).

(** The number of entries of the day of [now] that are tallied as
    numbers. *)
Definition today_count `{Locale} (now : Z) (l : list EmotionEntry) : nat :=
  length (filter (λ e, ordinary (emotion e)) (todayEntries now l)).

(** A row of the panel for a count: no row for zero. *)
Definition row (n : nat) : option Tally :=
  match n with 0 => None | S _ => Some (Num n) end.

(** No inherited key holds a number and no other key holds a text. *)
Definition tally_wf (m : gmap string Tally) : Prop :=
  ∀ k v, m !! k = Some v → (v = Text ↔ k ∈ Object_prototype_keys).

(** What one round of the tally does to the row of its own label, when
    that label is not an inherited key. *)
Definition bump (o : option Tally) : option Tally :=
  match o with
  | Some (Num n) => Some (Num (n + 1))
  | Some Text => Some Text
  | None => Some (Num 1)
  end.

(** On a page that starts fresh, a streaming controller holds a stream
    and has its start button disabled. *)
Definition streaming_inv (w : World) : Prop :=
  isStreaming (this w) = true →
  is_Some (stream (this w)) ∧ cameraUI w = ui_started.

(** ** Further measures *)

(** The labels of the recommendation requests among [fs], oldest first. *)
Definition recommendation_lookups (fs : list Request) : list string :=
  omap (λ r, match r with
             | GetRecommendations label => Some label
             | _ => None
             end) fs.

(** The clock reading of the [updateTodayEmotions] call made for the last
    message of a run, if there was a message. *)
Definition last_update (evs : list Event) : option Z :=
  last (omap (λ ev, match ev with
                    | Message _ _ _ now' => Some now'
                    | _ => None
                    end) evs).

(** The labels of the entries of the day of [now]. *)
Definition today_labels `{Locale} (now : Z) (l : list EmotionEntry)
  : list string :=
  emotion <$> todayEntries now l.

(** The number of camera requests granted in a run. *)
Definition grants (evs : list Event) : nat :=
  length (omap (λ ev, match ev with
                      | CameraGranted s => Some s
                      | _ => None
                      end) evs).

(** The socket is closing or closed (or there is none): it is neither
    connecting nor open. *)
Definition socket_gone (w : World) : Prop :=
  ws (this w) ≠ Some CONNECTING ∧ ws (this w) ≠ Some OPEN.

(** The flag [isStreaming], the field [stream] and the buttons agree, and
    the stream held is live. *)
Definition controller_inv (w : World) : Prop :=
  (isStreaming (this w) = true ↔ is_Some (stream (this w)))
  ∧ (isStreaming (this w) = true ↔ cameraUI w = ui_started)
  ∧ (∀ s, stream (this w) = Some s → s ∈ liveStreams w).

(** ** Capturing a mood, from the click to the notification *)

(** A whole [captureMood()] with all it awaits, nothing else happening on
    the page meanwhile.  [analysis] is the parsed answer of
    [/analyze-emotion], or [None] when that request is rejected: the
    [toBlob] callback then ends in a rejection that nothing handles (the
    [try] of [captureMood] has long been left).  [outcome] and
    [mindWellApp] are those of [saveMoodEntry]; the same
    [window.mindWellApp] is what [showNotification] looks for. *)
Definition captureMood_run (analysis : option (string * Q)) (now now' : Z)
    (outcome : FetchOutcome) (mindWellApp : option string) (w : World)
  : World :=
  if negb (isStreaming (this w)) then captureMood w
  else
    let w := captureMood_blob (captureMood w) in
    match analysis with
    | None => w
    | Some (emotion, confidence) =>
        let w := captureMood_analyzed emotion confidence now now' w in
        let w := saveMoodEntry_resume outcome mindWellApp w in
        captureMood_saved emotion confidence
          (bool_decide (is_Some mindWellApp)) w
    end.

(** The requests that follow the posted entry: the dashboard is fetched
    again when the entry was accepted while the dashboard is the current
    section. *)
Definition dashboard_refresh (outcome : FetchOutcome)
    (mindWellApp : option string) : list Request :=
  match outcome, mindWellApp with
  | Resolved true, Some currentSection =>
      if decide (currentSection = "dashboard") then [GetMoodAnalytics] else []
  | _, _ => []
  end.

(** ** Icons and emojis *)

(** [iconMap] of [updateEmotionDisplay]. *)
Definition iconMap : gmap string string :=
  list_to_map
    [("Happy", "fas fa-smile"); ("Sad", "fas fa-sad-tear");
     ("Angry", "fas fa-angry"); ("Fear", "fas fa-frown");
     ("Surprise", "fas fa-surprise"); ("Neutral", "fas fa-meh");
     ("Disgust", "fas fa-dizzy")].

(** [emojiMap] of [addEmotionAnimation]. *)
Definition emojiMap : gmap string string :=
  list_to_map
    [("Happy", "😊"); ("Sad", "😢"); ("Angry", "😠"); ("Fear", "😨");
     ("Surprise", "😮"); ("Neutral", "😐"); ("Disgust", "🤢")].

(** [table[key] || fallback], for a table written as an object literal
    with non-empty texts as values: an own value wins; so does the value
    inherited under a key of [Object.prototype], which is not a text
    ([None]); any other key gives the fallback. *)
Definition lookup_or (table : gmap string string) (key fallback : string)
  : option string :=
  match table !! key with
  | Some v => Some v
  | None =>
      if decide (key ∈ Object_prototype_keys) then None else Some fallback
  end.

(** The class given to the icon, and the text of the animation. *)
Definition icon_class (emotion : string) : option string :=
  lookup_or iconMap emotion "fas fa-question".

Definition emoji (emotion : string) : option string :=
  lookup_or emojiMap emotion "❓".

(** * Properties *)

(** ** Reading fields through updates *)

Lemma storeEmotion_history `{Locale} emotion confidence now now' w :
  detectedEmotions (this (storeEmotion emotion confidence now now' w)) =
  push_bounded {| emotion := emotion; confidence := confidence;
                  timestamp := now |} (detectedEmotions (this w)).
Proof. reflexivity. Qed.

Lemma storeEmotion_rows `{Locale} emotion confidence now now' w :
  todayEmotions (storeEmotion emotion confidence now now' w) =
  emotionCounts now'
    (detectedEmotions (this (storeEmotion emotion confidence now now' w))).
Proof. reflexivity. Qed.

Lemma updateCameraUI_this state w : this (updateCameraUI state w) = this w.
Proof. unfold updateCameraUI. by case_decide. Qed.

Lemma sendFrame_this w : this (sendFrame w) = this w.
Proof.
  unfold sendFrame. destruct (isStreaming (this w)); [|done].
  destruct (ws (this w)) as [r|]; [|done]. by case_decide.
Qed.

Lemma timer_fires_this w : this (timer_fires w) = this w.
Proof.
  unfold timer_fires. destruct (timers w); [done|]. by rewrite sendFrame_this.
Qed.

(** Only a message changes the history. *)
Lemma step_history `{Locale} w ev :
  detectedEmotions (this (step w ev)) =
  match ev with
  | Message emotion confidence now _ =>
      push_bounded {| emotion := emotion; confidence := confidence;
                      timestamp := now |} (detectedEmotions (this w))
  | _ => detectedEmotions (this w)
  end.
Proof.
  destruct ev as [|s| | | | | | |e c t t'| | |e c t t'|o a|e c a];
    unfold step; try done.
  - unfold startCamera_resume, startEmotionDetection.
    by rewrite updateCameraUI_this, sendFrame_this.
  - unfold stopCamera. rewrite updateCameraUI_this.
    destruct (stream (this w)); simpl;
      repeat (match goal with |- context [match ?x with _ => _ end] =>
                destruct x end; simpl); done.
  - by rewrite timer_fires_this.
  - unfold channel_opens. by destruct (ws (this w)) as [[]|].
  - unfold channel_closes. by destruct (ws (this w)) as [[]|].
  - unfold channel_fails. by destruct (ws (this w)) as [[]|].
  - unfold captureMood. by destruct (negb _).
  - unfold saveMoodEntry_resume.
    destruct o as [[]|]; try done. destruct a; [|done]. by case_decide.
  - unfold captureMood_saved, showNotification. by destruct a.
Qed.

(** ** The bounded history *)

Lemma last_n_length {A} n (l : list A) : length (last_n n l) = length l `min` n.
Proof. unfold last_n. rewrite length_drop. lia. Qed.

Lemma last_n_short {A} n (l : list A) : length l ≤ n → last_n n l = l.
Proof. intros Hl. unfold last_n. by replace (length l - n) with 0 by lia. Qed.

(** Pushing onto the last hundred of [l] gives the last hundred of [l]
    with the new entry. *)
Lemma push_bounded_last_n e l :
  push_bounded e (last_n 100 l) = last_n 100 (l ++ [e]).
Proof.
  unfold push_bounded. rewrite length_app, last_n_length. simpl.
  unfold last_n. rewrite length_app. simpl.
  case_decide as Hlen.
  - assert (100 ≤ length l) as Hl by lia.
    replace (length l + 1 - 100) with (S (length l - 100)) by lia.
    rewrite drop_app_le by lia.
    destruct (drop (length l - 100) l) as [|x t] eqn:Hd.
    + apply (f_equal length) in Hd. rewrite length_drop in Hd. simpl in Hd. lia.
    + simpl. rewrite <- (drop_app_le l [e]) by lia.
      change (t ++ [e]) with (drop 1 ((x :: t) ++ [e])).
      rewrite <- Hd, <- (drop_app_le l [e]) by lia.
      rewrite drop_drop. f_equal. lia.
  - replace (length l - 100) with 0 by lia.
    replace (length l + 1 - 100) with 0 by lia. done.
Qed.

Lemma run_snoc `{Locale} evs ev w : run (evs ++ [ev]) w = step (run evs w) ev.
Proof. unfold run. by rewrite foldl_app. Qed.

Lemma recorded_snoc evs ev :
  recorded (evs ++ [ev]) =
  recorded evs ++
  match ev with
  | Message emotion confidence now _ =>
      [{| emotion := emotion; confidence := confidence; timestamp := now |}]
  | _ => []
  end.
Proof.
  unfold recorded. rewrite omap_app. f_equal. by destruct ev.
Qed.

(** Whatever else happens on the page, the history is the last hundred of
    what it held at first followed by what the messages brought. *)
Lemma run_history `{Locale} evs w :
  length (detectedEmotions (this w)) ≤ 100 →
  detectedEmotions (this (run evs w)) =
  last_n 100 (detectedEmotions (this w) ++ recorded evs).
Proof.
  intros Hw. induction evs as [|ev evs IH] using rev_ind.
  - simpl. unfold recorded. simpl. rewrite app_nil_r.
    symmetry. by apply last_n_short.
  - rewrite run_snoc, step_history, recorded_snoc, IH.
    destruct ev; rewrite ?app_nil_r; try done.
    by rewrite push_bounded_last_n, app_assoc.
Qed.

(** ** Tallying *)

Lemma proto_not_ordinary : ¬ ordinary "__proto__".
Proof. unfold ordinary. intros Hn. apply Hn. compute_done. Qed.

Lemma tally_lookup_ne m k j : j ≠ k → tally m k !! j = m !! j.
Proof.
  intros Hne. unfold tally. case_decide; [done|].
  destruct (m !! k) as [[n|]|]; [| |case_decide];
    by rewrite lookup_insert_ne.
Qed.

Lemma tally_lookup_ordinary m k :
  ordinary k →
  tally m k !! k =
  match m !! k with
  | Some (Num n) => Some (Num (n + 1))
  | Some Text => Some Text
  | None => Some (Num 1)
  end.
Proof.
  intros Hk. unfold tally. case_decide as Hp.
  - subst. by destruct proto_not_ordinary.
  - destruct (m !! k) as [[n|]|]; [| |case_decide; [done|]];
      by rewrite lookup_insert_eq.
Qed.

Lemma tally_wf_empty : tally_wf ∅.
Proof. intros k v Hk. by rewrite lookup_empty in Hk. Qed.

Lemma tally_wf_step m k : tally_wf m → tally_wf (tally m k).
Proof.
  intros Hm j v. destruct (decide (j = k)) as [->|Hne].
  - unfold tally. case_decide as Hp; [apply Hm|].
    destruct (m !! k) as [[n|]|] eqn:Hk.
    + rewrite lookup_insert_eq. intros [= <-].
      destruct (Hm _ _ Hk) as [_ Hb].
      split; [done | intros Hin; by specialize (Hb Hin)].
    + rewrite lookup_insert_eq. intros [= <-]. exact (Hm _ _ Hk).
    + case_decide; rewrite lookup_insert_eq; intros [= <-]; split; done.
  - rewrite tally_lookup_ne by done. apply Hm.
Qed.

Lemma total_empty : total ∅ = 0.
Proof. unfold total. by rewrite map_to_list_empty. Qed.

Lemma total_insert_fresh m k v :
  m !! k = None → total (<[k := v]> m) = numeric v + total m.
Proof.
  intros Hk. unfold total. by rewrite (map_to_list_insert m k v Hk).
Qed.

Lemma total_insert_over m k v v0 :
  m !! k = Some v0 → total (<[k := v]> m) + numeric v0 = numeric v + total m.
Proof.
  intros Hk. rewrite <- (insert_delete_eq m k v).
  rewrite total_insert_fresh by apply lookup_delete_eq.
  unfold total. rewrite <- (map_to_list_delete m k v0 Hk), !fmap_cons.
  set (rest := sum_list (numeric <$> (map_to_list (delete k m)).*2)).
  change (numeric v + rest + numeric v0 = numeric v + (numeric v0 + rest)).
  lia.
Qed.

(** A round of the tally adds one to the total exactly when the label is
    not an inherited key. *)
Lemma total_tally m k :
  tally_wf m →
  total (tally m k) = total m + (if decide (ordinary k) then 1 else 0).
Proof.
  intros Hm. unfold tally. case_decide as Hp.
  - subst. rewrite decide_False by apply proto_not_ordinary. lia.
  - destruct (m !! k) as [[n|]|] eqn:Hk.
    + pose proof (total_insert_over m k (Num (n + 1)) _ Hk) as Ht.
      simpl in Ht. rewrite decide_True; [lia|].
      intros Hin. apply (Hm _ _ Hk) in Hin. done.
    + pose proof (total_insert_over m k Text _ Hk) as Ht.
      simpl in Ht. rewrite decide_False; [lia|].
      intros Hn. apply Hn. by apply (Hm _ _ Hk).
    + unfold ordinary. case_decide as Hin.
      * rewrite total_insert_fresh by done. rewrite decide_False by tauto.
        simpl. lia.
      * rewrite total_insert_fresh by done. rewrite decide_True by done.
        simpl. lia.
Qed.

Lemma foldl_tally_wf (l : list EmotionEntry) m :
  tally_wf m → tally_wf (foldl (λ counts e, tally counts (emotion e)) m l).
Proof.
  revert m. induction l as [|e l IH]; intros m Hm; [done|].
  simpl. apply IH. by apply tally_wf_step.
Qed.

Lemma foldl_tally_total (l : list EmotionEntry) m :
  tally_wf m →
  total (foldl (λ counts e, tally counts (emotion e)) m l) =
  total m + length (filter (λ e, ordinary (emotion e)) l).
Proof.
  revert m. induction l as [|e l IH]; intros m Hm.
  - simpl. lia.
  - simpl foldl. rewrite IH by by apply tally_wf_step.
    rewrite total_tally by done. rewrite filter_cons.
    destruct (decide (ordinary (emotion e))); simpl; lia.
Qed.

Lemma bump_row n : Nat.iter n bump None = row n.
Proof.
  induction n as [|n IH]; [done|]. simpl. rewrite IH.
  destruct n as [|n]; simpl; [done|]. do 2 f_equal. lia.
Qed.

Lemma foldl_tally_lookup (l : list EmotionEntry) m k :
  ordinary k →
  foldl (λ counts e, tally counts (emotion e)) m l !! k =
  Nat.iter (length (filter (λ e, emotion e = k) l)) bump (m !! k).
Proof.
  intros Hk. revert m. induction l as [|e l IH]; intros m; [done|].
  simpl foldl. rewrite IH, filter_cons.
  destruct (decide (emotion e = k)) as [->|Hne].
  - rewrite tally_lookup_ordinary by done. simpl length.
    by rewrite Nat.iter_succ_r.
  - by rewrite tally_lookup_ne.
Qed.

(** The row of a label that is not an inherited key shows how many
    entries of the day carry it. *)
Lemma emotionCounts_lookup `{Locale} now l k :
  ordinary k → emotionCounts now l !! k = row (label_count now k l).
Proof.
  intros Hk. unfold emotionCounts, label_count.
  by rewrite foldl_tally_lookup, lookup_empty, bump_row.
Qed.

Lemma emotionCounts_total `{Locale} now l :
  total (emotionCounts now l) = today_count now l.
Proof.
  unfold emotionCounts, today_count.
  rewrite foldl_tally_total by apply tally_wf_empty.
  by rewrite total_empty.
Qed.

Lemma today_count_le `{Locale} now l : today_count now l ≤ length l.
Proof.
  unfold today_count, todayEntries.
  etrans; [apply length_filter|]. apply length_filter.
Qed.

Lemma todayEntries_app `{Locale} now l1 l2 :
  todayEntries now (l1 ++ l2) = todayEntries now l1 ++ todayEntries now l2.
Proof. unfold todayEntries. apply filter_app. Qed.

Lemma push_bounded_short e l :
  length l < 100 → push_bounded e l = l ++ [e].
Proof.
  intros Hl. unfold push_bounded. rewrite length_app. simpl.
  case_decide; [lia|done].
Qed.

(** The entry just pushed is the last one of the history. *)
Lemma push_bounded_last e l : ∃ l', push_bounded e l = l' ++ [e].
Proof.
  unfold push_bounded. case_decide as Hlen; [|by eexists].
  rewrite length_app in Hlen. simpl in Hlen.
  destruct l as [|x l]; [simpl in Hlen; lia|]. by exists l.
Qed.

Lemma push_bounded_length e l :
  length l ≤ 100 → length (push_bounded e l) ≤ 100.
Proof.
  intros Hl. unfold push_bounded. case_decide as Hlen.
  - destruct l as [|x l]; simpl in *; [lia|]. rewrite length_app. simpl. lia.
  - lia.
Qed.

Lemma last_n_app {A} n (l1 l2 : list A) :
  n ≤ length l2 → last_n n (l1 ++ l2) = last_n n l2.
Proof.
  intros Hn. unfold last_n. rewrite length_app, drop_app_ge by lia.
  f_equal. lia.
Qed.

Lemma recorded_app evs1 evs2 :
  recorded (evs1 ++ evs2) = recorded evs1 ++ recorded evs2.
Proof. apply omap_app. Qed.

Lemma recorded_numbered label conf (l : list nat) :
  recorded ((λ i, Message (label i) (conf i) (Z.of_nat i) (Z.of_nat i)) <$> l) =
  (λ i, {| emotion := label i; confidence := conf i;
           timestamp := Z.of_nat i |}) <$> l.
Proof. induction l as [|i l IH]; [done|]. simpl. f_equal. exact IH. Qed.

(** The history after a call that follows a run from a fresh page. *)
Lemma storeEmotion_after_run `{Locale} evs emotion confidence now now' :
  detectedEmotions
    (this (storeEmotion emotion confidence now now'
             (run evs new_CameraManager))) =
  last_n 100 (recorded evs ++ [{| emotion := emotion;
                                  confidence := confidence;
                                  timestamp := now |}]).
Proof.
  rewrite storeEmotion_history, run_history by (simpl; lia).
  simpl app. apply push_bounded_last_n.
Qed.

(** ** The recent-history buffer *)

(** C1.  On a page that starts fresh, whatever happens and in whatever
    order, the history [detectedEmotions] never holds more than 100
    entries and is exactly the last 100 entries brought by the messages,
    in order of arrival: when full, the oldest entry leaves.  After 105
    messages it holds the entries of messages 6 to 105. *)
Theorem history_is_last_hundred `{Locale} (evs : list Event)
    (label : nat → string) (conf : nat → Q) :
  let history := detectedEmotions (this (run evs new_CameraManager)) in
  length history ≤ 100
  ∧ history = last_n 100 (recorded evs)
  ∧ detectedEmotions
      (this (run (numbered_messages label conf 105) new_CameraManager)) =
    (λ i, {| emotion := label i; confidence := conf i;
             timestamp := Z.of_nat i |}) <$> seq 6 100.
Proof.
  assert (∀ l, detectedEmotions (this (run l new_CameraManager)) =
               last_n 100 (recorded l)) as Hrun.
  { intros l. by rewrite run_history by (simpl; lia). }
  cbv zeta. split_and!.
  - rewrite Hrun, last_n_length. lia.
  - apply Hrun.
  - rewrite Hrun. unfold numbered_messages. rewrite recorded_numbered.
    unfold last_n. rewrite length_fmap, length_seq, <- fmap_drop. done.
Qed.

(** ** The counts of the day *)

(** C10.  After every [storeEmotion] call the rows of the day are
    recomputed from the history alone, that is, from the last 100 entries:
    the numeric counts sum to at most 100, and whatever was recorded before
    the last 100 entries, on the same day or not, no longer contributes. *)
Theorem today_counts_from_history_only `{Locale} (evs : list Event)
    (emotion : string) (confidence : Q) (now now' : Z) :
  let entry := {| emotion := emotion; confidence := confidence;
                  timestamp := now |} in
  let w := storeEmotion emotion confidence now now'
             (run evs new_CameraManager) in
  todayEmotions w = emotionCounts now' (last_n 100 (recorded evs ++ [entry]))
  ∧ total (todayEmotions w) ≤ 100
  ∧ ∀ older : list Event,
      99 ≤ length (recorded evs) →
      todayEmotions (storeEmotion emotion confidence now now'
                       (run (older ++ evs) new_CameraManager)) =
      todayEmotions w.
Proof.
  cbv zeta. split_and!.
  - by rewrite storeEmotion_rows, storeEmotion_after_run.
  - rewrite storeEmotion_rows, emotionCounts_total.
    etrans; [apply today_count_le|].
    rewrite storeEmotion_after_run, last_n_length. lia.
  - intros older Hlen.
    rewrite !storeEmotion_rows, !storeEmotion_after_run.
    rewrite recorded_app, <- app_assoc.
    rewrite last_n_app; [done|]. rewrite length_app. simpl. lia.
Qed.

(** An entry that was pushed out of the history has no row any more, even
    though it is of the same day: one ["Sad"] followed by a hundred
    ["Happy"], all within the first second of 1970 (UTC). *)
Lemma today_counts_from_history_only_witness :
  let evs := numbered_messages (λ _, "Happy") (λ _, 1 # 2)%Q 99 in
  let older := [Message "Sad" (1 # 2) 0 0] in
  let w := storeEmotion (H := utc) "Happy" (1 # 2) 100 100
             (run (H := utc) (older ++ evs) new_CameraManager) in
  99 ≤ length (recorded evs)
  ∧ todayEmotions w !! "Sad" = None
  ∧ todayEmotions w !! "Happy" = Some (Num 100).
Proof.
  cbv zeta.
  assert (99 ≤ length (recorded
            (numbered_messages (λ _, "Happy") (λ _, 1 # 2)%Q 99))) as Hlen.
  { vm_compute. lia. }
  split; [exact Hlen|].
  destruct (today_counts_from_history_only (H := utc)
              (numbered_messages (λ _, "Happy") (λ _, 1 # 2)%Q 99)
              "Happy" (1 # 2) 100 100) as (_ & _ & Hold).
  rewrite (Hold [Message "Sad" (1 # 2) 0 0] Hlen).
  split; vm_compute; reflexivity.
Defined.

(** ** Labels outside the recognised set *)

Lemma label_count_pushed `{Locale} now' e l :
  toDateString (timestamp e) = toDateString now' →
  1 ≤ label_count now' (emotion e) (push_bounded e l).
Proof.
  intros Hday. destruct (push_bounded_last e l) as [l' ->].
  unfold label_count. rewrite todayEntries_app, filter_app, length_app.
  unfold todayEntries at 2. rewrite filter_cons, decide_True by done.
  rewrite filter_cons, decide_True by done. simpl. lia.
Qed.

(** C2, as the code has it.  A label outside the recognised set, other
    than a key every object inherits, is counted under its own name: there
    is no ["unknown"] row.  [storeEmotion] is a total function (nothing in
    it can throw).  When the entry is of the current day, its row shows at
    least 1, namely the number of entries of the day in the history that
    carry the label; and if the history held fewer than 100 entries
    before the call, the sum of the counts of the day grows by exactly 1. *)
Theorem unrecognised_label_counted_under_own_name `{Locale}
    (emotion : string) (confidence : Q) (now now' : Z) (w : World) :
  emotion ∉ EmotionLabels →
  ordinary emotion →
  toDateString now = toDateString now' →
  let w' := storeEmotion emotion confidence now now' w in
  let history := detectedEmotions (this w) in
  todayEmotions w' !! emotion =
    Some (Num (label_count now' emotion (detectedEmotions (this w'))))
  ∧ 1 ≤ label_count now' emotion (detectedEmotions (this w'))
  ∧ (length history < 100 →
     total (todayEmotions w') = total (emotionCounts now' history) + 1).
Proof.
  intros _ Hord Hday. cbv zeta.
  pose proof (label_count_pushed now'
                {| emotion := emotion; confidence := confidence;
                   timestamp := now |}
                (detectedEmotions (this w)) Hday) as Hpos.
  simpl in Hpos. rewrite <- storeEmotion_history with (now' := now') in Hpos.
  split_and!.
  - rewrite storeEmotion_rows, emotionCounts_lookup by done.
    destruct (label_count _ _ _); [lia|done].
  - exact Hpos.
  - intros Hlen. rewrite storeEmotion_rows, !emotionCounts_total.
    rewrite storeEmotion_history, push_bounded_short by done.
    unfold today_count. rewrite todayEntries_app, filter_app, length_app.
    unfold todayEntries at 2. rewrite filter_cons, decide_True by done.
    rewrite filter_cons, decide_True by done. simpl. lia.
Qed.

Lemma unrecognised_label_counted_under_own_name_witness :
  let w' := storeEmotion (H := utc) "Bored" (1 # 2) 0 0 new_CameraManager in
  todayEmotions w' !! "Bored" = Some (Num 1)
  ∧ total (todayEmotions w') = 1.
Proof.
  cbv zeta.
  assert ("Bored" ∉ EmotionLabels) as Hout by compute_done.
  assert (ordinary "Bored") as Hord by compute_done.
  destruct (unrecognised_label_counted_under_own_name (H := utc)
              "Bored" (1 # 2) 0 0 new_CameraManager Hout Hord eq_refl)
    as (Hrow & _ & Htotal).
  split.
  - rewrite Hrow. vm_compute. reflexivity.
  - rewrite Htotal by (vm_compute; lia). vm_compute. reflexivity.
Defined.

(** Against the specification: ["Bored"] gets a row of its own and no
    ["unknown"] row appears; and once the history holds 100 entries of the
    day, one more entry leaves the sum of the counts at 100. *)
Lemma unrecognised_label_no_unknown_bucket :
  let w := storeEmotion (H := utc) "Bored" (1 # 2) 0 0 new_CameraManager in
  let full := run (H := utc)
                (numbered_messages (λ _, "Happy") (λ _, 1 # 2)%Q 100)
                new_CameraManager in
  ("Bored" ∉ EmotionLabels)
  ∧ todayEmotions w !! "unknown" = None
  ∧ todayEmotions w !! "Bored" = Some (Num 1)
  ∧ total (todayEmotions full) = 100
  ∧ total (todayEmotions
             (storeEmotion (H := utc) "Bored" (1 # 2) 101 101 full)) = 100.
Proof.
  cbv zeta. split; [compute_done|].
  repeat split; vm_compute; reflexivity.
Qed.

(** ** Confidence values *)

(** C7, as the code has it.  A confidence outside [0, 1] is neither
    clamped nor rejected: the entry is stored with the confidence as it
    came.  The confidence takes no part in the tally: the rows are the same
    whatever its value, and the numeric counts sum to the number of
    entries of the day held in the history whose label is tallied as a
    number. *)
Theorem confidence_stored_as_received `{Locale}
    (emotion : string) (confidence : Q) (now now' : Z) (w : World) :
  ¬ (0 <= confidence <= 1)%Q →
  let w' := storeEmotion emotion confidence now now' w in
  last (detectedEmotions (this w')) =
    Some {| emotion := emotion; confidence := confidence; timestamp := now |}
  ∧ (∀ c : Q, todayEmotions (storeEmotion emotion c now now' w) =
              todayEmotions w')
  ∧ total (todayEmotions w') = today_count now' (detectedEmotions (this w')).
Proof.
  intros _. cbv zeta. split_and!.
  - rewrite storeEmotion_history.
    destruct (push_bounded_last
                {| emotion := emotion; confidence := confidence;
                   timestamp := now |} (detectedEmotions (this w)))
      as [l' ->].
    apply last_snoc.
  - intros c. rewrite !storeEmotion_rows, !storeEmotion_history.
    unfold push_bounded. rewrite !length_app. simpl length.
    unfold emotionCounts, todayEntries.
    case_decide; [destruct (detectedEmotions (this w)) as [|x l]; simpl tail|];
      rewrite ?filter_app, ?foldl_app, ?filter_cons, ?filter_nil;
      simpl; try done; by case_decide.
  - by rewrite storeEmotion_rows, emotionCounts_total.
Qed.

Lemma confidence_stored_as_received_witness :
  let w' := storeEmotion (H := utc) "Happy" (3 # 2) 0 0 new_CameraManager in
  ¬ (0 <= 3 # 2 <= 1)%Q
  ∧ confidence <$> detectedEmotions (this w') = [(3 # 2)%Q]
  ∧ total (todayEmotions w') = 1.
Proof.
  cbv zeta.
  assert (¬ (0 <= 3 # 2 <= 1)%Q) as Hout.
  { intros [_ Hle]. apply Hle. reflexivity. }
  split; [exact Hout|].
  destruct (confidence_stored_as_received (H := utc)
              "Happy" (3 # 2) 0 0 new_CameraManager Hout)
    as (Hlast & _ & Htotal).
  split.
  - reflexivity.
  - rewrite Htotal. vm_compute. reflexivity.
Defined.

(** Against the specification: a confidence of 3/2 is stored as 3/2; and
    after 101 entries of one day the counts of that day sum to 100. *)
Lemma confidence_not_clamped :
  let w := storeEmotion (H := utc) "Happy" (3 # 2) 0 0 new_CameraManager in
  let w101 := run (H := utc)
                (numbered_messages (λ _, "Happy") (λ _, 3 # 2)%Q 101)
                new_CameraManager in
  ¬ (0 <= 3 # 2 <= 1)%Q
  ∧ detectedEmotions (this w) =
      [{| emotion := "Happy"; confidence := 3 # 2; timestamp := 0 |}]
  ∧ length (recorded (numbered_messages (λ _, "Happy") (λ _, 3 # 2)%Q 101))
      = 101
  ∧ total (todayEmotions w101) = 100.
Proof.
  cbv zeta. split.
  { intros [_ Hle]. apply Hle. reflexivity. }
  repeat split; vm_compute; reflexivity.
Qed.

(** ** The send loop *)

Lemma updateCameraUI_started w :
  updateCameraUI "started" w = set_cameraUI ui_started w.
Proof. reflexivity. Qed.

Lemma updateCameraUI_stopped w :
  updateCameraUI "stopped" w = set_cameraUI ui_stopped w.
Proof. reflexivity. Qed.

(** With the socket not open, or the controller not streaming,
    [sendFrame] returns at once. *)
Lemma sendFrame_idle w :
  isStreaming (this w) = false ∨ ws (this w) ≠ Some OPEN → sendFrame w = w.
Proof.
  unfold sendFrame. intros [->|Hws]; [done|].
  destruct (isStreaming (this w)); [|done].
  destruct (ws (this w)) as [r|]; [|done].
  case_decide as Hr; [done|]. destruct Hws. f_equal.
  by destruct (decide (r = OPEN)).
Qed.

Lemma sendFrame_sends w :
  isStreaming (this w) = true → ws (this w) = Some OPEN →
  sendFrame w = set_timers (S (timers w)) (set_framesSent (S (framesSent w)) w).
Proof.
  intros Hs Hws. unfold sendFrame. rewrite Hs, Hws. reflexivity.
Qed.

(** With no timer pending, only a granted camera request starts a loop:
    nothing else schedules a [sendFrame] or sends a frame. *)
Lemma step_no_timer `{Locale} w ev :
  timers w = 0 → (∀ s, ev ≠ CameraGranted s) →
  timers (step w ev) = 0 ∧ framesSent (step w ev) = framesSent w.
Proof.
  intros Ht Hev.
  destruct ev as [|s| | | | | | |e c t t'| | |e c t t'|o a|e c a];
    unfold step; try done.
  - by destruct (Hev s).
  - unfold stopCamera. rewrite updateCameraUI_stopped.
    destruct (stream (this w)); simpl;
      repeat (match goal with |- context [match ?x with _ => _ end] =>
                destruct x end; simpl); done.
  - unfold timer_fires. by rewrite Ht.
  - unfold channel_opens. by destruct (ws (this w)) as [[]|].
  - unfold channel_closes. by destruct (ws (this w)) as [[]|].
  - unfold channel_fails. by destruct (ws (this w)) as [[]|].
  - unfold captureMood. by destruct (negb _).
  - unfold saveMoodEntry_resume.
    destruct o as [[]|]; try done. destruct a; [|done]. by case_decide.
  - unfold captureMood_saved, showNotification. by destruct a.
Qed.

Lemma run_no_timer `{Locale} evs w :
  timers w = 0 → Forall (λ ev, ∀ s, ev ≠ CameraGranted s) evs →
  timers (run evs w) = 0 ∧ framesSent (run evs w) = framesSent w.
Proof.
  intros Ht Hevs. induction evs as [|ev evs IH] using rev_ind; [done|].
  apply Forall_app in Hevs as [Hevs Hev].
  apply (proj1 (Forall_singleton _ _)) in Hev.
  destruct (IH Hevs) as [IHt IHf].
  rewrite run_snoc. destruct (step_no_timer (run evs w) ev IHt Hev) as [? ?].
  split; [done|congruence].
Qed.

(** C3, as the code has it.  When a pending tick of the send loop comes
    due:
    - while streaming with the socket not open, it sends nothing, queues
      nothing and does not reschedule: the world is as before, less the
      timer that fired; the loop has ended although the controller is
      still streaming;
    - after the controller has left streaming, likewise: the tick still
      runs (the timer is not cancelled), sends nothing and does not
      reschedule;
    - only while streaming with an open socket does it send one frame and
      schedule the next tick;
    - once the last pending tick has ended that way, no tick comes due
      and no frame is sent, whatever happens (the socket opening
      included), until a camera request is granted again;
    - [stopCamera] cancels no timer: the ticks pending before it are
      pending after it, and when it takes the controller out of
      streaming (a stream was held) the next of them still runs, sends
      nothing and does not reschedule. *)
Theorem tick_of_send_loop `{Locale} (w : World) (n : nat) :
  timers w = S n →
  (isStreaming (this w) = true → ws (this w) ≠ Some OPEN →
     timer_fires w = set_timers n w)
  ∧ (isStreaming (this w) = false → timer_fires w = set_timers n w)
  ∧ (isStreaming (this w) = true → ws (this w) = Some OPEN →
     timer_fires w = set_framesSent (S (framesSent w)) w)
  ∧ (n = 0 →
     isStreaming (this w) = false ∨ ws (this w) ≠ Some OPEN →
     ∀ evs, Forall (λ ev, ∀ s, ev ≠ CameraGranted s) evs →
       timers (run evs (timer_fires w)) = 0
       ∧ framesSent (run evs (timer_fires w)) = framesSent w)
  ∧ timers (stopCamera w) = S n
  ∧ (is_Some (stream (this w)) →
     isStreaming (this (stopCamera w)) = false
     ∧ timer_fires (stopCamera w) = set_timers n (stopCamera w)).
Proof.
  intros Ht.
  assert (timers (stopCamera w) = S n) as Hkept.
  { rewrite <- Ht. unfold stopCamera. rewrite updateCameraUI_stopped.
    destruct (stream (this w)); simpl;
      destruct (ws (this w)) as [[]|]; done. }
  split_and!; [..|exact Hkept|].
  - intros Hs Hws. unfold timer_fires. rewrite Ht.
    by rewrite sendFrame_idle by (right; done).
  - intros Hs. unfold timer_fires. rewrite Ht.
    by rewrite sendFrame_idle by (left; done).
  - intros Hs Hws. unfold timer_fires. rewrite Ht.
    rewrite sendFrame_sends by done.
    destruct w. simpl in *. by subst.
  - intros -> Hidle evs Hevs. unfold timer_fires. rewrite Ht.
    rewrite sendFrame_idle by done.
    exact (run_no_timer evs (set_timers 0 w) eq_refl Hevs).
  - intros [s Hst].
    assert (isStreaming (this (stopCamera w)) = false) as Hout.
    { unfold stopCamera. rewrite updateCameraUI_this, Hst. simpl.
      by destruct (ws (this w)) as [[]|]. }
    split; [exact Hout|].
    unfold timer_fires. rewrite Hkept.
    apply sendFrame_idle. left. exact Hout.
Qed.

Lemma tick_of_send_loop_witness :
  let w := run (H := utc) [ChannelOpens; StartCamera; CameraGranted 1;
                           ChannelCloses] new_CameraManager in
  timers w = 1
  ∧ isStreaming (this w) = true
  ∧ ws (this w) ≠ Some OPEN
  ∧ timer_fires w = set_timers 0 w
  ∧ framesSent (run (H := utc) [TimerFires; TimerFires]
                  (timer_fires w)) = framesSent w
  ∧ is_Some (stream (this w))
  ∧ timers (stopCamera w) = 1
  ∧ isStreaming (this (stopCamera w)) = false
  ∧ timer_fires (stopCamera w) = set_timers 0 (stopCamera w).
Proof.
  cbv zeta.
  set (w := run (H := utc) [ChannelOpens; StartCamera; CameraGranted 1;
                            ChannelCloses] new_CameraManager).
  assert (timers w = 1) as Ht by reflexivity.
  assert (isStreaming (this w) = true) as Hs by reflexivity.
  assert (ws (this w) ≠ Some OPEN) as Hws by (intros [=]).
  assert (is_Some (stream (this w))) as Hheld by (by exists 1).
  destruct (tick_of_send_loop (H := utc) w 0 Ht)
    as (Hdrop & _ & _ & Hdead & Hkept & Hstop).
  destruct (Hstop Hheld) as [Hout Hlast].
  split; [exact Ht|]. split; [exact Hs|]. split; [exact Hws|].
  split; [exact (Hdrop Hs Hws)|].
  split.
  { apply (Hdead eq_refl (or_intror Hws) [TimerFires; TimerFires]).
    repeat constructor; intros s [=]. }
  split; [exact Hheld|]. split; [exact Hkept|].
  split; [exact Hout|exact Hlast].
Defined.

(** Against the specification: a tick that finds the socket closed ends
    the loop while the controller is still streaming; a start made before
    the socket has opened sends nothing, and nothing after the socket
    opens; and after [stopCamera] the timer of the loop is still pending. *)
Lemma send_loop_ends_on_closed_channel :
  let streaming := run (H := utc) [ChannelOpens; StartCamera; CameraGranted 1]
                     new_CameraManager in
  let dropped := run (H := utc) [ChannelCloses; TimerFires] streaming in
  let early := run (H := utc) [StartCamera; CameraGranted 1; ChannelOpens]
                 new_CameraManager in
  let stopped := run (H := utc) [StopCamera] streaming in
  (isStreaming (this dropped) = true ∧ timers dropped = 0)
  ∧ (isStreaming (this early) = true ∧ ws (this early) = Some OPEN
     ∧ timers early = 0 ∧ framesSent early = 0)
  ∧ (isStreaming (this stopped) = false ∧ timers stopped = 1).
Proof. cbv zeta. split_and!; vm_compute; reflexivity. Qed.

(** ** Losing the channel *)

Lemma stopCamera_releases w s :
  stream (this w) = Some s →
  stream (this (stopCamera w)) = None
  ∧ isStreaming (this (stopCamera w)) = false
  ∧ s ∉ liveStreams (stopCamera w).
Proof.
  intros Hs. unfold stopCamera. rewrite Hs, updateCameraUI_stopped. simpl.
  assert (s ∉ filter (λ s', s' ≠ s) (liveStreams w)) as Hout.
  { rewrite list_elem_of_filter. by intros [Hne _]. }
  destruct (ws (this w)) as [[]|]; done.
Qed.




(** ** Starting twice *)

(** The invariant [streaming_inv] is kept by every event. *)
Lemma step_streaming_inv `{Locale} w ev :
  streaming_inv w → streaming_inv (step w ev).
Proof.
  unfold streaming_inv. intros Hw.
  destruct ev as [|s| | | | | | |e c t t'| | |e c t t'|o a|e c a];
    unfold step; try done.
  - intros _. unfold startCamera_resume, startEmotionDetection.
    rewrite updateCameraUI_started. simpl. rewrite sendFrame_this. simpl.
    split; [by eexists|done].
  - unfold stopCamera. rewrite updateCameraUI_stopped.
    destruct (stream (this w)) as [s|] eqn:Hs.
    + simpl. by destruct (ws (this w)) as [[]|].
    + destruct (ws (this w)) as [[]|] eqn:Hws; simpl; rewrite ?Hs;
        intros Hi; destruct (Hw Hi) as [[? [=]] _].
  - unfold timer_fires. destruct (timers w); [done|].
    rewrite sendFrame_this. simpl.
    unfold sendFrame. simpl. destruct (isStreaming (this w)); [|done].
    destruct (ws (this w)) as [r|]; [|done]. by case_decide.
  - unfold channel_opens. by destruct (ws (this w)) as [[]|].
  - unfold channel_closes. by destruct (ws (this w)) as [[]|].
  - unfold channel_fails. by destruct (ws (this w)) as [[]|].
  - unfold captureMood. by destruct (negb _).
  - unfold saveMoodEntry_resume.
    destruct o as [[]|]; try done. destruct a; [|done]. by case_decide.
  - unfold captureMood_saved, showNotification. by destruct a.
Qed.

Lemma run_streaming_inv `{Locale} evs :
  streaming_inv (run evs new_CameraManager).
Proof.
  induction evs as [|ev evs IH] using rev_ind; [done|].
  rewrite run_snoc. by apply step_streaming_inv.
Qed.

(** C5, as the code has it.  [startCamera] does not look at the state.
    Called while streaming, it requests the camera again; once granted,
    the new stream replaces the held one, which stays live, and with the
    socket open another frame is sent and another send loop is scheduled
    next to the running one.  The only guard is on the page: a completed
    start disables the start button, and on a page that starts fresh the
    button is disabled whenever the controller is streaming, so that a
    click on it reaches nothing. *)
Theorem start_while_streaming_starts_again `{Locale} (w : World)
    (s0 s : nat) :
  isStreaming (this w) = true →
  stream (this w) = Some s0 →
  s0 ∈ liveStreams w →
  ws (this w) = Some OPEN →
  let w1 := startCamera_call w in
  let w2 := startCamera_resume (Some s) w1 in
  getUserMediaCalls w1 = S (getUserMediaCalls w)
  ∧ stream (this w2) = Some s
  ∧ liveStreams w2 = s :: liveStreams w
  ∧ s0 ∈ liveStreams w2
  ∧ timers w2 = S (timers w)
  ∧ framesSent w2 = S (framesSent w)
  ∧ click_start w2 = w2
  ∧ ∀ evs : list Event,
      isStreaming (this (run evs new_CameraManager)) = true →
      click_start (run evs new_CameraManager) = run evs new_CameraManager.
Proof.
  intros Hi Hs Hlive Hws. cbv zeta.
  unfold startCamera_resume, startEmotionDetection.
  rewrite updateCameraUI_started, sendFrame_sends by done.
  simpl. split_and!; try done.
  - by apply list_elem_of_further.
  - intros evs Hrun. destruct (run_streaming_inv evs Hrun) as [_ Hui].
    unfold click_start. by rewrite Hui.
Qed.

Lemma start_while_streaming_starts_again_witness :
  let w := run (H := utc) [ChannelOpens; StartCamera; CameraGranted 1]
             new_CameraManager in
  let w2 := startCamera_resume (Some 2) (startCamera_call w) in
  isStreaming (this w) = true
  ∧ getUserMediaCalls w2 = 2
  ∧ liveStreams w2 = [2; 1]
  ∧ timers w2 = 2.
Proof.
  cbv zeta.
  set (w := run (H := utc) [ChannelOpens; StartCamera; CameraGranted 1]
              new_CameraManager).
  assert (isStreaming (this w) = true) as Hi by reflexivity.
  destruct (start_while_streaming_starts_again (H := utc) w 1 2 Hi eq_refl
              (list_elem_of_here _ _) eq_refl)
    as (Hg & _ & Hl & _ & Ht & _).
  split; [exact Hi|]. split; [exact Hg|]. split; [exact Hl|exact Ht].
Defined.

(** Against the specification: a second start on a streaming controller
    requests the camera a second time, holds a second live stream and
    runs a second send loop. *)
Lemma second_start_acquires_again :
  let w := run (H := utc) [ChannelOpens; StartCamera; CameraGranted 1]
             new_CameraManager in
  let w2 := run (H := utc) [StartCamera; CameraGranted 2] w in
  isStreaming (this w) = true
  ∧ getUserMediaCalls w = 1 ∧ getUserMediaCalls w2 = 2
  ∧ liveStreams w = [1] ∧ liveStreams w2 = [2; 1]
  ∧ timers w = 1 ∧ timers w2 = 2.
Proof. cbv zeta. split_and!; vm_compute; reflexivity. Qed.

(** ** Stopping when idle *)

(** C6, as the code has it.  On a controller that holds no stream,
    [stopCamera] leaves the stream, [isStreaming] and the history as they
    are and does nothing to the camera, to the timers or to the frames
    sent; but it closes the socket when the socket is open, and leaves it
    alone otherwise.  [stopCamera] is idempotent: a second call changes
    nothing. *)
Theorem stop_when_idle (w : World) :
  stream (this w) = None →
  let w' := stopCamera w in
  stream (this w') = None
  ∧ isStreaming (this w') = isStreaming (this w)
  ∧ detectedEmotions (this w') = detectedEmotions (this w)
  ∧ liveStreams w' = liveStreams w
  ∧ getUserMediaCalls w' = getUserMediaCalls w
  ∧ timers w' = timers w
  ∧ framesSent w' = framesSent w
  ∧ ws (this w') =
      (if decide (ws (this w) = Some OPEN) then Some CLOSING else ws (this w))
  ∧ stopCamera w' = w'.
Proof.
  intros Hs. cbv zeta. unfold stopCamera.
  rewrite !updateCameraUI_stopped, Hs.
  destruct w as [[st r i l] lv g t f u ce n c ft te]. simpl in *. subst st.
  destruct r as [[]|]; simpl; split_and!; done.
Qed.

Lemma stop_when_idle_witness :
  let w := channel_opens new_CameraManager in
  stream (this w) = None
  ∧ ws (this w) = Some OPEN
  ∧ ws (this (stopCamera w)) = Some CLOSING
  ∧ stopCamera (stopCamera w) = stopCamera w.
Proof.
  cbv zeta.
  assert (stream (this (channel_opens new_CameraManager)) = None) as Hs
    by reflexivity.
  destruct (stop_when_idle (channel_opens new_CameraManager) Hs)
    as (_ & _ & _ & _ & _ & _ & _ & Hws & Hidem).
  split; [exact Hs|]. split; [reflexivity|]. split; [exact Hws|exact Hidem].
Defined.

(** Against the specification: on an idle controller whose socket is
    open, [stopCamera] closes the socket. *)
Lemma stop_when_idle_closes_channel :
  let w := channel_opens new_CameraManager in
  stream (this w) = None
  ∧ isStreaming (this w) = false
  ∧ ws (this w) = Some OPEN
  ∧ ws (this (stopCamera w)) = Some CLOSING.
Proof. cbv zeta. split_and!; vm_compute; reflexivity. Qed.

(** ** A refused camera *)

(** C8, as the code has it.  When the camera request is rejected,
    [startCamera] leaves the controller exactly as it was (no field
    records the failure), starts no send loop, sends nothing and opens no
    socket; it logs the error and shows the message "Unable to access
    camera. Please check permissions." on the page. *)
Theorem camera_refused (w : World) :
  let w' := startCamera_resume None (startCamera_call w) in
  this w' = this w
  ∧ liveStreams w' = liveStreams w
  ∧ timers w' = timers w
  ∧ framesSent w' = framesSent w
  ∧ cameraUI w' = cameraUI w
  ∧ getUserMediaCalls w' = S (getUserMediaCalls w)
  ∧ console w' = console w ++ ["Error accessing camera:"]
  ∧ cameraErrors w' =
      cameraErrors w ++ ["Unable to access camera. Please check permissions."].
Proof. cbv zeta. split_and!; reflexivity. Qed.

(** Against the specification: after a refused request the controller is
    the one the constructor left, field for field: there is no error
    state to be in. *)
Lemma camera_refused_no_error_state :
  this (run (H := utc) [StartCamera; CameraDenied] new_CameraManager) =
  this new_CameraManager.
Proof. vm_compute. reflexivity. Qed.

(** ** A failed mood-entry submission *)

(** C9, as the code has it.  When the submission fails (the request is
    rejected, or answered with a status that is not ok), [saveMoodEntry]
    has issued exactly one request and issues no other, keeps nothing of
    the entry and schedules nothing; it raises no notification the user
    can see: a rejected request is logged to the console, a bad status is
    not even logged. *)
Theorem failed_submission_is_dropped (emotion : string) (confidence : Q)
    (now now' : Z) (outcome : FetchOutcome) (mindWellApp : option string)
    (w : World) :
  outcome ≠ Resolved true →
  let w' := saveMoodEntry_resume outcome mindWellApp
              (saveMoodEntry_call emotion confidence now now' w) in
  fetches w' =
    fetches w ++
    [PostMoodEntry {| entry_emotion := emotion;
                      intensity := Math_round (confidence * 100)%Q;
                      notes_time := now;
                      entry_timestamp := now' |}]
  ∧ this w' = this w
  ∧ timers w' = timers w
  ∧ notifications w' = notifications w
  ∧ cameraErrors w' = cameraErrors w
  ∧ console w' =
      console w ++
      match outcome with
      | Rejected => ["Error saving mood entry:"]
      | Resolved _ => []
      end.
Proof.
  intros Hfail. cbv zeta. destruct outcome as [[]|]; [done| |].
  - simpl. rewrite app_nil_r. split_and!; reflexivity.
  - split_and!; reflexivity.
Qed.

Lemma failed_submission_is_dropped_witness :
  let w' := saveMoodEntry_resume Rejected (Some "dashboard")
              (saveMoodEntry_call "Happy" (9 # 10) 0 0 new_CameraManager) in
  Rejected ≠ Resolved true
  ∧ length (fetches w') = 1
  ∧ notifications w' = []
  ∧ cameraErrors w' = [].
Proof.
  cbv zeta.
  assert (Rejected ≠ Resolved true) as Hfail by (intros [=]).
  destruct (failed_submission_is_dropped "Happy" (9 # 10) 0 0 Rejected
              (Some "dashboard") new_CameraManager Hfail)
    as (Hf & _ & _ & Hn & Hc & _).
  split; [exact Hfail|]. split; [by rewrite Hf|].
  split; [exact Hn|exact Hc].
Defined.

(** Against the specification: after a rejected submission, and after one
    answered with a bad status, no notification and no error message is on
    the page; and when [captureMood] resumes after the failed
    [saveMoodEntry] the one notification it shows is "Mood captured". *)
Lemma failed_submission_not_notified :
  let sent := saveMoodEntry_call "Happy" (9 # 10) 0 0 new_CameraManager in
  let rejected := saveMoodEntry_resume Rejected (Some "dashboard") sent in
  let bad := saveMoodEntry_resume (Resolved false) (Some "dashboard") sent in
  (notifications rejected = [] ∧ cameraErrors rejected = [])
  ∧ (notifications bad = [] ∧ cameraErrors bad = [] ∧ console bad = [])
  ∧ notifications (captureMood_saved "Happy" (9 # 10) true rejected) =
      [MoodCaptured "Happy" 90].
Proof. cbv zeta. split_and!; vm_compute; reflexivity. Qed.

(** * Further properties of the code *)

(** ** Messages and what they trigger *)

Lemma recommendation_lookups_app fs1 fs2 :
  recommendation_lookups (fs1 ++ fs2) =
  recommendation_lookups fs1 ++ recommendation_lookups fs2.
Proof. apply omap_app. Qed.

Lemma storeEmotion_fetches `{Locale} emotion confidence now now' w :
  fetches (storeEmotion emotion confidence now now' w) = fetches w.
Proof. reflexivity. Qed.

Lemma step_recommendation_lookups `{Locale} w ev :
  recommendation_lookups (fetches (step w ev)) =
  recommendation_lookups (fetches w) ++
  match ev with
  | Message emotion _ _ _ => [emotion]
  | _ => []
  end.
Proof.
  destruct ev as [|s| | | | | | |e c t t'| | |e c t t'|o a|e c a];
    unfold step; rewrite ?app_nil_r; try done.
  - unfold startCamera_resume, startEmotionDetection.
    rewrite updateCameraUI_started. simpl. unfold sendFrame. simpl.
    destruct (ws (this w)) as [r|]; [|done]. by case_decide.
  - unfold stopCamera. rewrite updateCameraUI_stopped.
    destruct (stream (this w)); simpl;
      repeat (match goal with |- context [match ?x with _ => _ end] =>
                destruct x end; simpl); done.
  - unfold timer_fires. destruct (timers w); [done|].
    unfold sendFrame. simpl. destruct (isStreaming (this w)); [|done].
    destruct (ws (this w)) as [r|]; [|done]. by case_decide.
  - unfold channel_opens. by destruct (ws (this w)) as [[]|].
  - unfold channel_closes. by destruct (ws (this w)) as [[]|].
  - unfold channel_fails. by destruct (ws (this w)) as [[]|].
  - unfold handleEmotionData, updateRecommendations_call. simpl fetches.
    by rewrite recommendation_lookups_app.
  - unfold captureMood. by destruct (negb _).
  - unfold captureMood_blob. simpl fetches.
    by rewrite recommendation_lookups_app, app_nil_r.
  - unfold captureMood_analyzed, saveMoodEntry_call. simpl fetches.
    by rewrite recommendation_lookups_app, app_nil_r.
  - unfold saveMoodEntry_resume.
    destruct o as [[]|]; try done. destruct a; [|done].
    case_decide; [|done]. unfold loadDashboard_call. simpl fetches.
    by rewrite recommendation_lookups_app, app_nil_r.
  - unfold captureMood_saved, showNotification. by destruct a.
Qed.

(** X1.  Every message triggers exactly one recommendation request, for
    its own label: over any run the recommendation requests issued are the
    labels of the messages, one for one and in order of arrival (they are
    not bounded to the last hundred, and a repeated label is requested
    again). *)
Theorem one_recommendation_lookup_per_message `{Locale} (evs : list Event) :
  recommendation_lookups (fetches (run evs new_CameraManager)) =
  emotion <$> recorded evs.
Proof.
  induction evs as [|ev evs IH] using rev_ind; [done|].
  rewrite run_snoc, step_recommendation_lookups, IH, recorded_snoc, fmap_app.
  f_equal. by destruct ev.
Qed.

Lemma step_rows `{Locale} w ev :
  todayEmotions (step w ev) =
  match ev with
  | Message _ _ _ now' =>
      emotionCounts now' (detectedEmotions (this (step w ev)))
  | _ => todayEmotions w
  end.
Proof.
  destruct ev as [|s| | | | | | |e c t t'| | |e c t t'|o a|e c a];
    unfold step; try done.
  - unfold startCamera_resume, startEmotionDetection.
    rewrite updateCameraUI_started. simpl. unfold sendFrame. simpl.
    destruct (ws (this w)) as [r|]; [|done]. by case_decide.
  - unfold stopCamera. rewrite updateCameraUI_stopped.
    destruct (stream (this w)); simpl;
      repeat (match goal with |- context [match ?x with _ => _ end] =>
                destruct x end; simpl); done.
  - unfold timer_fires. destruct (timers w); [done|].
    unfold sendFrame. simpl. destruct (isStreaming (this w)); [|done].
    destruct (ws (this w)) as [r|]; [|done]. by case_decide.
  - unfold channel_opens. by destruct (ws (this w)) as [[]|].
  - unfold channel_closes. by destruct (ws (this w)) as [[]|].
  - unfold channel_fails. by destruct (ws (this w)) as [[]|].
  - unfold captureMood. by destruct (negb _).
  - unfold saveMoodEntry_resume.
    destruct o as [[]|]; try done. destruct a; [|done]. by case_decide.
  - unfold captureMood_saved, showNotification. by destruct a.
Qed.

(** X2.  The rows shown are never out of step with the history: after any
    run they are the counts of the current history, taken at the clock
    reading of the last message; before the first message there is no
    row.  Nothing but a message recounts them (not the passing of
    midnight, not a stop or a start). *)
Theorem rows_follow_history `{Locale} (evs : list Event) :
  todayEmotions (run evs new_CameraManager) =
  match last_update evs with
  | Some now' =>
      emotionCounts now' (detectedEmotions (this (run evs new_CameraManager)))
  | None => ∅
  end.
Proof.
  unfold last_update.
  induction evs as [|ev evs IH] using rev_ind; [done|].
  rewrite run_snoc, step_rows, omap_app.
  destruct ev; simpl omap; rewrite ?app_nil_r, ?last_snoc, ?step_history;
    try exact IH.
  done.
Qed.

(** ** Rows of the panel, label by label *)

Lemma tally_lookup_proto m k : tally m k !! "__proto__" = m !! "__proto__".
Proof.
  destruct (decide (k = "__proto__")) as [->|Hne].
  - unfold tally. by rewrite decide_True.
  - by apply tally_lookup_ne.
Qed.

Lemma tally_lookup_inherited m k :
  k ∈ Object_prototype_keys → k ≠ "__proto__" →
  m !! k = None ∨ m !! k = Some Text →
  tally m k !! k = Some Text.
Proof.
  intros Hin Hne Hm. unfold tally. rewrite decide_False by done.
  destruct Hm as [-> | ->].
  - rewrite decide_True by done. apply lookup_insert_eq.
  - apply lookup_insert_eq.
Qed.

Lemma foldl_tally_lookup_proto (l : list EmotionEntry) m :
  foldl (λ counts e, tally counts (emotion e)) m l !! "__proto__" =
  m !! "__proto__".
Proof.
  revert m. induction l as [|e l IH]; intros m; [done|].
  simpl. by rewrite IH, tally_lookup_proto.
Qed.

Lemma foldl_tally_lookup_inherited (l : list EmotionEntry) m k :
  k ∈ Object_prototype_keys → k ≠ "__proto__" →
  m !! k = None ∨ m !! k = Some Text →
  foldl (λ counts e, tally counts (emotion e)) m l !! k =
  if decide (length (filter (λ e, emotion e = k) l) = 0)
  then m !! k else Some Text.
Proof.
  intros Hin Hne. revert m. induction l as [|e l IH]; intros m Hm; [done|].
  simpl foldl. rewrite filter_cons.
  destruct (decide (emotion e = k)) as [He|He].
  - rewrite IH.
    + rewrite He, tally_lookup_inherited by done.
      simpl length. rewrite (decide_False (P := S _ = 0)) by done.
      by case_decide.
    + right. rewrite He. by apply tally_lookup_inherited.
  - rewrite IH; rewrite tally_lookup_ne by done; done.
Qed.

(** X3.  A label that is the name of a property every object inherits is
    never given a numeric count: ["__proto__"] gets no row at all, however
    often it arrives, and any other such label (["constructor"],
    ["toString"], ...) gets a row holding a text as soon as one entry of
    the day carries it. *)
Theorem inherited_label_row `{Locale} (now : Z) (l : list EmotionEntry)
    (k : string) :
  k ∈ Object_prototype_keys →
  emotionCounts now l !! k =
  if decide (k = "__proto__") then None
  else if decide (label_count now k l = 0) then None else Some Text.
Proof.
  intros Hin. unfold emotionCounts, label_count. case_decide as Hp.
  - subst. by rewrite foldl_tally_lookup_proto.
  - rewrite foldl_tally_lookup_inherited by (done || by left).
    by rewrite lookup_empty.
Qed.

Lemma inherited_label_row_witness :
  let l := [{| emotion := "constructor"; confidence := 1 # 2; timestamp := 0 |};
            {| emotion := "__proto__"; confidence := 1 # 2; timestamp := 1 |};
            {| emotion := "constructor"; confidence := 1 # 2; timestamp := 2 |}] in
  emotionCounts (H := utc) 3 l !! "constructor" = Some Text
  ∧ emotionCounts (H := utc) 3 l !! "__proto__" = None.
Proof.
  cbv zeta. split.
  - rewrite (inherited_label_row (H := utc)) by compute_done.
    vm_compute. reflexivity.
  - rewrite (inherited_label_row (H := utc)) by compute_done.
    vm_compute. reflexivity.
Defined.

Lemma label_count_labels `{Locale} now k l :
  label_count now k l = length (filter (λ x, x = k) (today_labels now l)).
Proof.
  unfold label_count, today_labels.
  induction (todayEntries now l) as [|e t IH]; [done|].
  rewrite fmap_cons, !filter_cons.
  destruct (decide (emotion e = k)); simpl; by rewrite IH.
Qed.

Lemma label_count_zero `{Locale} now k l :
  label_count now k l = 0 ↔ k ∉ today_labels now l.
Proof.
  rewrite label_count_labels.
  induction (today_labels now l) as [|x t IH]; [set_solver|].
  rewrite filter_cons, not_elem_of_cons.
  destruct (decide (x = k)) as [->|Hne]; simpl.
  - split; [done|]. by intros [? _].
  - rewrite IH. split; [by split|by intros [_ ?]].
Qed.

(** X4.  There is a row for a label exactly when an entry of the current
    day carries it (and the label is not ["__proto__"]): an empty history,
    or one whose entries are all of other days, gives no row; no label
    gets a row of zero. *)
Theorem rows_are_labels_of_today `{Locale} (now : Z)
    (l : list EmotionEntry) (k : string) :
  is_Some (emotionCounts now l !! k) ↔
  k ≠ "__proto__" ∧ k ∈ today_labels now l.
Proof.
  destruct (decide (k ∈ Object_prototype_keys)) as [Hin|Hout].
  - rewrite inherited_label_row by done.
    case_decide as Hp; [split; [by intros [? ?]|by intros [? _]]|].
    case_decide as Hz.
    + apply label_count_zero in Hz.
      split; [by intros [? ?]|by intros [_ ?]].
    + split; [intros _|by eexists]. split; [done|].
      destruct (decide (k ∈ today_labels now l)) as [|Hn]; [done|].
      by apply label_count_zero in Hn.
  - rewrite emotionCounts_lookup by done.
    assert (k ≠ "__proto__") as Hp.
    { intros ->. by apply proto_not_ordinary. }
    destruct (label_count now k l) as [|n] eqn:Hc; simpl.
    + apply label_count_zero in Hc.
      split; [by intros [? ?]|by intros [_ ?]].
    + split; [intros _|by eexists]. split; [done|].
      destruct (decide (k ∈ today_labels now l)) as [|Hn]; [done|].
      apply label_count_zero in Hn. congruence.
Qed.

(** X5.  The count shown under a label depends only on how many entries
    of the current day carry each label: for two histories whose labels of
    the day are the same up to order, every label has the same row content
    (no row, the same number, or a text), whatever the order of arrival,
    the confidences, the exact instants and the entries of other days.
    The order in which the page lists the rows (that of first arrival) is
    not part of this statement. *)
Theorem rows_depend_on_labels_of_today `{Locale} (now : Z)
    (l l' : list EmotionEntry) (k : string) :
  today_labels now l ≡ₚ today_labels now l' →
  emotionCounts now l !! k = emotionCounts now l' !! k.
Proof.
  intros Hperm.
  assert (label_count now k l = label_count now k l') as Hc.
  { rewrite !label_count_labels. by rewrite Hperm. }
  destruct (decide (k ∈ Object_prototype_keys)) as [Hin|Hout].
  - rewrite !inherited_label_row by done. by rewrite Hc.
  - rewrite !emotionCounts_lookup by done. by rewrite Hc.
Qed.

Lemma rows_depend_on_labels_of_today_witness :
  let a := {| emotion := "Happy"; confidence := 9 # 10; timestamp := 5 |} in
  let b := {| emotion := "Sad"; confidence := 2 # 5; timestamp := 7 |} in
  let old := {| emotion := "Angry"; confidence := 1; timestamp := -1 |} in
  emotionCounts (H := utc) 10 [a; old; b] !! "Happy" =
  emotionCounts (H := utc) 10 [b; a] !! "Happy".
Proof.
  cbv zeta. apply (rows_depend_on_labels_of_today (H := utc)).
  vm_compute. apply perm_swap.
Defined.

(** ** Midnight *)

Lemma todayEntries_none `{Locale} now (l : list EmotionEntry) :
  Forall (λ e, toDateString (timestamp e) ≠ toDateString now) l →
  todayEntries now l = [].
Proof.
  unfold todayEntries. induction 1 as [|e l He _ IH]; [done|].
  by rewrite filter_cons, decide_False.
Qed.

Lemma push_bounded_cases e l :
  push_bounded e l = l ++ [e] ∨
  ∃ x l', l = x :: l' ∧ push_bounded e l = l' ++ [e].
Proof.
  unfold push_bounded. case_decide as Hlen; [|by left].
  destruct l as [|x l']; [simpl in Hlen; lia|]. right. by exists x, l'.
Qed.

Lemma tally_fresh_ordinary k : ordinary k → tally ∅ k = {[ k := Num 1 ]}.
Proof.
  intros Hk. unfold tally. rewrite decide_False.
  - rewrite lookup_empty. by rewrite decide_False.
  - intros ->. by apply proto_not_ordinary.
Qed.

(** X6.  The first entry of a new day starts the panel afresh: when no
    entry of the history is of the current day, storing an entry of the
    current day leaves exactly one row, that of its label, with count 1,
    whatever the history holds of earlier days. *)
Theorem first_entry_of_the_day `{Locale} (emotion : string)
    (confidence : Q) (now now' : Z) (w : World) :
  Forall (λ e, toDateString (timestamp e) ≠ toDateString now')
    (detectedEmotions (this w)) →
  toDateString now = toDateString now' →
  ordinary emotion →
  todayEmotions (storeEmotion emotion confidence now now' w) =
  {[ emotion := Num 1 ]}.
Proof.
  intros Hold Hday Hord.
  rewrite storeEmotion_rows, storeEmotion_history.
  set (e := {| emotion := emotion; confidence := confidence;
               timestamp := now |}).
  assert (∃ l', push_bounded e (detectedEmotions (this w)) = l' ++ [e]
                ∧ todayEntries now' l' = []) as (l' & -> & Hl').
  { destruct (push_bounded_cases e (detectedEmotions (this w)))
      as [->|(x & l' & Hl & ->)].
    - eexists. split; [done|]. by apply todayEntries_none.
    - exists l'. split; [done|]. apply todayEntries_none.
      rewrite Hl in Hold. by apply Forall_cons in Hold as [_ ?]. }
  unfold emotionCounts. rewrite todayEntries_app, Hl'. simpl.
  unfold todayEntries. rewrite filter_cons, decide_True by done.
  simpl. by apply tally_fresh_ordinary.
Qed.

Lemma first_entry_of_the_day_witness :
  let yesterday := storeEmotion (H := utc) "Happy" (1 # 2) 0 0
                     new_CameraManager in
  todayEmotions yesterday = {[ "Happy" := Num 1 ]}
  ∧ todayEmotions
      (storeEmotion (H := utc) "Sad" (1 # 2) 86400000 86400001 yesterday) =
    {[ "Sad" := Num 1 ]}.
Proof.
  cbv zeta. split.
  - apply (first_entry_of_the_day (H := utc)); [constructor|done|compute_done].
  - apply (first_entry_of_the_day (H := utc)); [|done|compute_done].
    repeat constructor. vm_compute. intros [=].
Defined.

(** X7.  An entry stored just before midnight and recounted just after
    is left out of the rows: when the two clock readings of one
    [storeEmotion] call fall on different days, the rows are those of the
    history without the new entry (the history holding fewer than 100
    entries before the call). *)
Theorem entry_stored_across_midnight `{Locale} (emotion : string)
    (confidence : Q) (now now' : Z) (w : World) :
  toDateString now ≠ toDateString now' →
  length (detectedEmotions (this w)) < 100 →
  todayEmotions (storeEmotion emotion confidence now now' w) =
  emotionCounts now' (detectedEmotions (this w)).
Proof.
  intros Hday Hlen.
  rewrite storeEmotion_rows, storeEmotion_history, push_bounded_short by done.
  unfold emotionCounts. rewrite todayEntries_app.
  unfold todayEntries at 2. rewrite filter_cons, decide_False by done.
  by rewrite filter_nil, app_nil_r.
Qed.

Lemma entry_stored_across_midnight_witness :
  todayEmotions
    (storeEmotion (H := utc) "Happy" (1 # 2) 86399999 86400000
       new_CameraManager) = ∅.
Proof.
  rewrite (entry_stored_across_midnight (H := utc)).
  - reflexivity.
  - vm_compute. intros [=].
  - simpl. lia.
Defined.

(** ** Frames on the wire *)

Lemma sendFrame_frames w :
  framesSent (sendFrame w) = framesSent w
  ∨ (framesSent (sendFrame w) = S (framesSent w)
     ∧ isStreaming (this w) = true ∧ ws (this w) = Some OPEN).
Proof.
  unfold sendFrame. destruct (isStreaming (this w)); [|by left].
  destruct (ws (this w)) as [r|]; [|by left].
  case_decide as Hr; [by left|]. right.
  destruct (decide (r = OPEN)) as [->|]; done.
Qed.

Lemma step_frames `{Locale} (w : World) (ev : Event) :
  framesSent (step w ev) = framesSent w
  ∨ (framesSent (step w ev) = S (framesSent w)
     ∧ isStreaming (this (step w ev)) = true
     ∧ ws (this (step w ev)) = Some OPEN
     ∧ (ev = TimerFires ∨ ∃ s, ev = CameraGranted s)).
Proof.
  destruct ev as [|s| | | | | | |e c t t'| | |e c t t'|o a|e c a];
    unfold step; try by left.
  - unfold startCamera_resume, startEmotionDetection.
    rewrite updateCameraUI_started.
    set (w1 := on_this _ _).
    change (framesSent (set_cameraUI ui_started (sendFrame w1)))
      with (framesSent (sendFrame w1)).
    change (this (set_cameraUI ui_started (sendFrame w1)))
      with (this (sendFrame w1)).
    rewrite sendFrame_this.
    destruct (sendFrame_frames w1) as [Hf|(Hf & Hi & Hws)]; [by left|].
    right. split_and!; [done|done|done|]. right. by exists s.
  - unfold stopCamera. rewrite updateCameraUI_stopped. left.
    destruct (stream (this w)); simpl;
      repeat (match goal with |- context [match ?x with _ => _ end] =>
                destruct x end; simpl); done.
  - unfold timer_fires. destruct (timers w) as [|n]; [by left|].
    rewrite sendFrame_this.
    destruct (sendFrame_frames (set_timers n w)) as [Hf|(Hf & Hi & Hws)];
      [by left|].
    right. split_and!; [done|done|done|]. by left.
  - left. unfold channel_opens. by destruct (ws (this w)) as [[]|].
  - left. unfold channel_closes. by destruct (ws (this w)) as [[]|].
  - left. unfold channel_fails. by destruct (ws (this w)) as [[]|].
  - left. unfold captureMood. by destruct (negb _).
  - left. unfold saveMoodEntry_resume.
    destruct o as [[]|]; try done. destruct a; [|done]. by case_decide.
  - left. unfold captureMood_saved, showNotification. by destruct a.
Qed.

(** X8.  No event sends more than one frame, and a frame goes out only
    from a tick of the send loop or from a granted camera request, and
    only with the controller streaming and the socket open: a message, a
    stop, a mood capture or a change of the socket sends nothing. *)
Theorem frames_only_when_streaming_and_open `{Locale} (w : World)
    (ev : Event) :
  framesSent (step w ev) = framesSent w
  ∨ (framesSent (step w ev) = S (framesSent w)
     ∧ isStreaming (this (step w ev)) = true
     ∧ ws (this (step w ev)) = Some OPEN
     ∧ (ev = TimerFires ∨ ∃ s, ev = CameraGranted s)).
Proof. apply step_frames. Qed.

Lemma step_socket_gone `{Locale} w ev :
  socket_gone w →
  socket_gone (step w ev) ∧ framesSent (step w ev) = framesSent w.
Proof.
  intros [Hc Ho]. split.
  - unfold socket_gone.
    destruct ev as [|s| | | | | | |e c t t'| | |e c t t'|o a|e c a];
      unfold step; try done.
    + unfold startCamera_resume, startEmotionDetection.
      by rewrite updateCameraUI_this, sendFrame_this.
    + unfold stopCamera. rewrite updateCameraUI_this.
      destruct (stream (this w)); simpl;
        destruct (ws (this w)) as [[]|] eqn:Hws; simpl; rewrite ?Hws; done.
    + by rewrite timer_fires_this.
    + unfold channel_opens.
      destruct (ws (this w)) as [[]|] eqn:Hws; simpl; rewrite ?Hws; done.
    + unfold channel_closes.
      destruct (ws (this w)) as [[]|] eqn:Hws; simpl; rewrite ?Hws; done.
    + unfold channel_fails.
      destruct (ws (this w)) as [[]|] eqn:Hws; simpl; rewrite ?Hws; done.
    + unfold captureMood. by destruct (negb _).
    + unfold saveMoodEntry_resume.
      destruct o as [[]|]; try done. destruct a; [|done]. by case_decide.
    + unfold captureMood_saved, showNotification. by destruct a.
  - destruct (step_frames w ev) as [Hf|(_ & _ & Hws & Hev)]; [done|].
    exfalso.
    destruct Hev as [->|[s ->]]; unfold step in Hws.
    + rewrite timer_fires_this in Hws. done.
    + unfold startCamera_resume, startEmotionDetection in Hws.
      rewrite updateCameraUI_this, sendFrame_this in Hws. done.
Qed.

Lemma run_socket_gone `{Locale} evs w :
  socket_gone w →
  socket_gone (run evs w) ∧ framesSent (run evs w) = framesSent w.
Proof.
  intros Hw. induction evs as [|ev evs [IHg IHf]] using rev_ind; [done|].
  rewrite run_snoc. destruct (step_socket_gone (run evs w) ev IHg) as [? ?].
  split; [done|congruence].
Qed.

(** X9.  The socket is made once, by the constructor, and never again:
    once it is closing or closed it stays so, and no frame is ever sent
    again, whatever follows (new starts and granted camera requests
    included). *)
Theorem no_frame_once_socket_gone `{Locale} (evs : list Event) (w : World) :
  socket_gone w →
  socket_gone (run evs w) ∧ framesSent (run evs w) = framesSent w.
Proof. apply run_socket_gone. Qed.

Lemma no_frame_once_socket_gone_witness :
  let w := run (H := utc) [ChannelOpens; StartCamera; CameraGranted 1;
                           StopCamera] new_CameraManager in
  let again := run (H := utc) [StartCamera; CameraGranted 2; ChannelOpens;
                               TimerFires; TimerFires] w in
  socket_gone w
  ∧ isStreaming (this again) = true
  ∧ framesSent again = framesSent w.
Proof.
  cbv zeta.
  set (w := run (H := utc) [ChannelOpens; StartCamera; CameraGranted 1;
                            StopCamera] new_CameraManager).
  assert (socket_gone w) as Hgone by (split; intros [=]).
  split; [exact Hgone|]. split; [reflexivity|].
  exact (proj2 (no_frame_once_socket_gone (H := utc)
                  [StartCamera; CameraGranted 2; ChannelOpens;
                   TimerFires; TimerFires] w Hgone)).
Defined.

(** X10.  Three things take the socket away for good: a close by the
    peer, a failure of the connection, and [stopCamera] whenever the
    socket is past connecting, be the controller streaming or idle. *)
Theorem what_takes_the_socket_away (w : World) :
  socket_gone (channel_closes w)
  ∧ socket_gone (channel_fails w)
  ∧ (ws (this w) ≠ Some CONNECTING → socket_gone (stopCamera w)).
Proof.
  split; [|split].
  - unfold socket_gone, channel_closes.
    destruct (ws (this w)) as [[]|] eqn:Hws; simpl; rewrite ?Hws;
      split; congruence.
  - unfold socket_gone, channel_fails.
    destruct (ws (this w)) as [[]|] eqn:Hws; simpl; rewrite ?Hws;
      split; congruence.
  - intros Hc. unfold socket_gone, stopCamera. rewrite updateCameraUI_this.
    destruct (stream (this w)); simpl;
      destruct (ws (this w)) as [[]|] eqn:Hws; simpl; rewrite ?Hws;
      split; congruence.
Qed.

Lemma what_takes_the_socket_away_witness :
  let idle := channel_opens new_CameraManager in
  ws (this idle) ≠ Some CONNECTING ∧ socket_gone (stopCamera idle).
Proof.
  cbv zeta.
  assert (ws (this (channel_opens new_CameraManager)) ≠ Some CONNECTING)
    as Hc by (intros [=]).
  split; [exact Hc|].
  exact (proj2 (proj2 (what_takes_the_socket_away
                         (channel_opens new_CameraManager))) Hc).
Defined.

(** ** What holds on every page *)

Lemma step_controller_inv `{Locale} w ev :
  controller_inv w → controller_inv (step w ev).
Proof.
  unfold controller_inv. intros (Hs & Hu & Hl).
  destruct ev as [|s| | | | | | |e c t t'| | |e c t t'|o a|e c a];
    unfold step; try done.
  - unfold startCamera_resume, startEmotionDetection.
    rewrite updateCameraUI_started.
    set (w1 := on_this _ _).
    change (this (set_cameraUI ui_started (sendFrame w1)))
      with (this (sendFrame w1)).
    change (cameraUI (set_cameraUI ui_started (sendFrame w1)))
      with ui_started.
    assert (liveStreams (set_cameraUI ui_started (sendFrame w1)) =
            s :: liveStreams w) as ->.
    { unfold sendFrame. simpl. destruct (ws (this w)) as [r|]; [|done].
      by case_decide. }
    rewrite sendFrame_this. simpl. split_and!.
    + split; [by eexists|done].
    + done.
    + intros s' [= <-]. apply list_elem_of_here.
  - unfold stopCamera. rewrite updateCameraUI_stopped.
    destruct (stream (this w)) as [s|] eqn:Hst.
    + simpl. destruct (ws (this w)) as [[]|]; simpl;
        (split_and!;
           [split; [done|by intros [? [=]]] | split; done | done]).
    + assert (isStreaming (this w) = false) as Hi.
      { destruct (isStreaming (this w)); [|done].
        destruct (proj1 Hs eq_refl) as [? [=]]. }
      destruct (ws (this w)) as [[]|] eqn:Hws; simpl;
        rewrite ?Hst, ?Hi;
        (split_and!;
           [split; [done|by intros [? [=]]] | split; done | done]).
  - unfold timer_fires. destruct (timers w) as [|n]; [done|].
    rewrite sendFrame_this.
    assert (cameraUI (sendFrame (set_timers n w)) = cameraUI w
            ∧ liveStreams (sendFrame (set_timers n w)) = liveStreams w)
      as [-> ->]; [|done].
    unfold sendFrame. simpl. destruct (isStreaming (this w)); [|done].
    destruct (ws (this w)) as [r|]; [|done]. by case_decide.
  - unfold channel_opens. by destruct (ws (this w)) as [[]|].
  - unfold channel_closes. by destruct (ws (this w)) as [[]|].
  - unfold channel_fails. by destruct (ws (this w)) as [[]|].
  - unfold captureMood. by destruct (negb _).
  - unfold saveMoodEntry_resume.
    destruct o as [[]|]; try done. destruct a; [|done]. by case_decide.
  - unfold captureMood_saved, showNotification. by destruct a.
Qed.

Lemma run_controller_inv `{Locale} evs :
  controller_inv (run evs new_CameraManager).
Proof.
  induction evs as [|ev evs IH] using rev_ind.
  - unfold controller_inv. simpl. split_and!; done.
  - rewrite run_snoc. by apply step_controller_inv.
Qed.

(** X11.  On a page that starts fresh, whatever happens, the controller
    is consistent: [isStreaming] is true exactly when a stream is held and
    exactly when the buttons are in their started state (start disabled,
    stop and capture enabled), and the stream held is live. *)
Theorem controller_is_consistent `{Locale} (evs : list Event) :
  let w := run evs new_CameraManager in
  (isStreaming (this w) = true ↔ is_Some (stream (this w)))
  ∧ (isStreaming (this w) = true ↔ cameraUI w = ui_started)
  ∧ (∀ s, stream (this w) = Some s → s ∈ liveStreams w).
Proof. apply run_controller_inv. Qed.

(** ** Stopping *)

Lemma step_not_streaming `{Locale} w ev :
  isStreaming (this w) = false → (∀ s, ev ≠ CameraGranted s) →
  isStreaming (this (step w ev)) = false
  ∧ framesSent (step w ev) = framesSent w.
Proof.
  intros Hi Hev.
  assert (isStreaming (this (step w ev)) = false) as Hi'.
  { destruct ev as [|s| | | | | | |e c t t'| | |e c t t'|o a|e c a];
      unfold step; try done.
    - by destruct (Hev s).
    - unfold stopCamera. rewrite updateCameraUI_this.
      destruct (stream (this w)); simpl;
        destruct (ws (this w)) as [[]|]; done.
    - by rewrite timer_fires_this.
    - unfold channel_opens. by destruct (ws (this w)) as [[]|].
    - unfold channel_closes. by destruct (ws (this w)) as [[]|].
    - unfold channel_fails. by destruct (ws (this w)) as [[]|].
    - unfold captureMood. by destruct (negb _).
    - unfold saveMoodEntry_resume.
      destruct o as [[]|]; try done. destruct a; [|done]. by case_decide.
    - unfold captureMood_saved, showNotification. by destruct a. }
  split; [done|].
  destruct (step_frames w ev) as [Hf|(_ & Hs & _)]; [done|congruence].
Qed.

Lemma run_not_streaming `{Locale} evs w :
  isStreaming (this w) = false →
  Forall (λ ev, ∀ s, ev ≠ CameraGranted s) evs →
  isStreaming (this (run evs w)) = false
  ∧ framesSent (run evs w) = framesSent w.
Proof.
  intros Hi Hevs. induction evs as [|ev evs IH] using rev_ind; [done|].
  apply Forall_app in Hevs as [Hevs Hev].
  apply (proj1 (Forall_singleton _ _)) in Hev.
  destruct (IH Hevs) as [IHi IHf]. rewrite run_snoc.
  destruct (step_not_streaming (run evs w) ev IHi Hev) as [? ?].
  split; [done|congruence].
Qed.

Lemma stopCamera_frames w : framesSent (stopCamera w) = framesSent w.
Proof.
  unfold stopCamera. rewrite updateCameraUI_stopped.
  destruct (stream (this w)); simpl; destruct (ws (this w)) as [[]|]; done.
Qed.

(** X12.  On a page that starts fresh, [stopCamera] stops the streaming:
    after it the controller is not streaming and no frame goes out,
    whatever happens next (ticks still pending and the socket opening
    included), until a camera request is granted again. *)
Theorem stop_silences_the_loop `{Locale} (before after : list Event) :
  Forall (λ ev, ∀ s, ev ≠ CameraGranted s) after →
  let stopped := stopCamera (run before new_CameraManager) in
  isStreaming (this (run after stopped)) = false
  ∧ framesSent (run after stopped) = framesSent (run before new_CameraManager).
Proof.
  intros Hafter. cbv zeta.
  set (w := run before new_CameraManager).
  assert (isStreaming (this (stopCamera w)) = false) as Hi.
  { destruct (run_controller_inv before) as (Hs & _ & _). fold w in Hs.
    unfold stopCamera. rewrite updateCameraUI_this.
    destruct (stream (this w)) as [s|] eqn:Hst.
    - simpl. by destruct (ws (this w)) as [[]|].
    - assert (isStreaming (this w) = false) as Hf.
      { destruct (isStreaming (this w)); [|done].
        destruct (proj1 Hs eq_refl) as [? [=]]. }
      destruct (ws (this w)) as [[]|] eqn:Hws; simpl; by rewrite ?Hf. }
  destruct (run_not_streaming after (stopCamera w) Hi Hafter) as [? Hf].
  split; [done|]. by rewrite Hf, stopCamera_frames.
Qed.

Lemma stop_silences_the_loop_witness :
  let before := [StartCamera; CameraGranted 1] in
  let after := [TimerFires; ChannelOpens; TimerFires; CaptureMood] in
  let stopped := stopCamera (run (H := utc) before new_CameraManager) in
  isStreaming (this (run (H := utc) after stopped)) = false
  ∧ framesSent (run (H := utc) after stopped) = 0.
Proof.
  cbv zeta.
  apply (stop_silences_the_loop (H := utc) [StartCamera; CameraGranted 1]
           [TimerFires; ChannelOpens; TimerFires; CaptureMood]).
  repeat constructor; intros s [=].
Defined.

(** X13.  [stopCamera] stops the tracks of the stream it holds and of no
    other: a stream that a second grant has replaced is still live after
    the stop, so the camera stays on. *)
Theorem stop_releases_only_the_held_stream (w : World) (s s0 : nat) :
  stream (this w) = Some s →
  s0 ≠ s →
  s0 ∈ liveStreams w →
  (s ∉ liveStreams (stopCamera w))
  ∧ s0 ∈ liveStreams (stopCamera w)
  ∧ stream (this (stopCamera w)) = None.
Proof.
  intros Hs Hne Hlive.
  destruct (stopCamera_releases w s Hs) as (Hnone & _ & Hout).
  split; [done|]. split; [|done].
  unfold stopCamera. rewrite Hs, updateCameraUI_stopped. simpl.
  assert (s0 ∈ filter (λ s', s' ≠ s) (liveStreams w)) as Hin.
  { by apply list_elem_of_filter. }
  destruct (ws (this w)) as [[]|]; done.
Qed.

Lemma stop_releases_only_the_held_stream_witness :
  let w := run (H := utc) [StartCamera; CameraGranted 1;
                           StartCamera; CameraGranted 2] new_CameraManager in
  stream (this w) = Some 2
  ∧ liveStreams (stopCamera w) = [1]
  ∧ 1 ∈ liveStreams (stopCamera w).
Proof.
  cbv zeta.
  set (w := run (H := utc) [StartCamera; CameraGranted 1;
                            StartCamera; CameraGranted 2] new_CameraManager).
  assert (stream (this w) = Some 2) as Hs by reflexivity.
  assert (1 ∈ liveStreams w) as Hlive.
  { apply list_elem_of_further, list_elem_of_here. }
  destruct (stop_releases_only_the_held_stream w 2 1 Hs ltac:(lia) Hlive)
    as (_ & Hin & _).
  split; [exact Hs|]. split; [reflexivity|exact Hin].
Defined.

(** ** Send loops *)

Lemma grants_snoc evs ev :
  grants (evs ++ [ev]) =
  grants evs + match ev with CameraGranted _ => 1 | _ => 0 end.
Proof.
  unfold grants. rewrite omap_app, length_app. by destruct ev.
Qed.

Lemma sendFrame_timers w : timers (sendFrame w) ≤ S (timers w).
Proof.
  unfold sendFrame. destruct (isStreaming (this w)); simpl; [|lia].
  destruct (ws (this w)) as [r|]; [|lia]. case_decide; simpl; lia.
Qed.

Lemma step_timers `{Locale} w ev :
  timers (step w ev) ≤
  timers w + match ev with CameraGranted _ => 1 | _ => 0 end.
Proof.
  destruct ev as [|s| | | | | | |e c t t'| | |e c t t'|o a|e c a];
    unfold step; try (simpl; lia).
  - unfold startCamera_resume, startEmotionDetection.
    rewrite updateCameraUI_started.
    set (w1 := on_this _ _).
    change (timers (set_cameraUI ui_started (sendFrame w1)))
      with (timers (sendFrame w1)).
    pose proof (sendFrame_timers w1) as Ht.
    change (timers w1) with (timers w) in Ht. lia.
  - unfold stopCamera. rewrite updateCameraUI_stopped.
    destruct (stream (this w)); simpl;
      destruct (ws (this w)) as [[]|]; simpl; lia.
  - unfold timer_fires. destruct (timers w) as [|n] eqn:Ht; [lia|].
    pose proof (sendFrame_timers (set_timers n w)) as Hs.
    simpl in Hs. lia.
  - unfold channel_opens. destruct (ws (this w)) as [[]|]; simpl; lia.
  - unfold channel_closes. destruct (ws (this w)) as [[]|]; simpl; lia.
  - unfold channel_fails. destruct (ws (this w)) as [[]|]; simpl; lia.
  - unfold captureMood. destruct (negb _); simpl; lia.
  - unfold saveMoodEntry_resume.
    destruct o as [[]|]; try (simpl; lia).
    destruct a; [|lia]. case_decide; simpl; lia.
  - unfold captureMood_saved, showNotification. destruct a; simpl; lia.
Qed.

(** X14.  Send loops come only from granted camera requests: after any
    run, the ticks pending are at most as many as the requests granted (a
    tick never schedules more than one successor, and nothing else
    schedules a tick). *)
Theorem pending_ticks_bounded_by_grants `{Locale} (evs : list Event) :
  timers (run evs new_CameraManager) ≤ grants evs.
Proof.
  induction evs as [|ev evs IH] using rev_ind; [done|].
  rewrite run_snoc, grants_snoc.
  pose proof (step_timers (run evs new_CameraManager) ev). lia.
Qed.

(** ** Capturing a mood *)

(** X15.  [captureMood] on a controller that is not streaming does one
    thing: it shows "Please start the camera first".  No request is
    issued, no entry saved, no notification shown, and the controller is
    left as it was, whatever the server would have answered. *)
Theorem capture_refused_when_not_streaming
    (analysis : option (string * Q)) (now now' : Z) (outcome : FetchOutcome)
    (mindWellApp : option string) (w : World) :
  isStreaming (this w) = false →
  let w' := captureMood_run analysis now now' outcome mindWellApp w in
  cameraErrors w' = cameraErrors w ++ ["Please start the camera first"]
  ∧ fetches w' = fetches w
  ∧ notifications w' = notifications w
  ∧ console w' = console w
  ∧ this w' = this w.
Proof.
  intros Hi. cbv zeta. unfold captureMood_run, captureMood. rewrite Hi.
  simpl. split_and!; reflexivity.
Qed.

Lemma capture_refused_when_not_streaming_witness :
  let w' := captureMood_run (Some ("Happy", 9 # 10)) 0 0 (Resolved true)
              (Some "dashboard") new_CameraManager in
  cameraErrors w' = ["Please start the camera first"] ∧ fetches w' = [].
Proof.
  cbv zeta.
  destruct (capture_refused_when_not_streaming (Some ("Happy", 9 # 10)) 0 0
              (Resolved true) (Some "dashboard") new_CameraManager eq_refl)
    as (He & Hf & _).
  split; [exact He|exact Hf].
Defined.

(** X16.  On a streaming controller, once the analysis has answered,
    [captureMood] posts the image and then one mood entry whose intensity
    is the percentage shown, refreshes the dashboard only after an
    accepted entry with the dashboard in view, and shows "Mood captured"
    (when the application object exists) whatever became of the entry:
    accepted, answered with a bad status, or rejected.  It shows no
    error. *)
Theorem capture_notifies_whatever_the_outcome (emotion : string)
    (confidence : Q) (now now' : Z) (outcome : FetchOutcome)
    (mindWellApp : option string) (w : World) :
  isStreaming (this w) = true →
  let w' := captureMood_run (Some (emotion, confidence)) now now' outcome
              mindWellApp w in
  let percent := Math_round (confidence * 100)%Q in
  fetches w' =
    fetches w ++
    [PostAnalyzeEmotion;
     PostMoodEntry {| entry_emotion := emotion; intensity := percent;
                      notes_time := now; entry_timestamp := now' |}] ++
    dashboard_refresh outcome mindWellApp
  ∧ notifications w' =
      notifications w ++
      match mindWellApp with
      | Some _ => [MoodCaptured emotion percent]
      | None => []
      end
  ∧ cameraErrors w' = cameraErrors w
  ∧ this w' = this w.
Proof.
  intros Hi. cbv zeta. unfold captureMood_run, captureMood. rewrite Hi.
  simpl negb. cbv iota.
  unfold captureMood_blob, captureMood_analyzed, saveMoodEntry_call,
    captureMood_saved, showNotification, saveMoodEntry_resume,
    dashboard_refresh, loadDashboard_call.
  destruct outcome as [[]|], mindWellApp as [sec|]; simpl;
    try case_decide; simpl;
    rewrite <- ?app_assoc, ?app_nil_r; split_and!; reflexivity.
Qed.

Lemma capture_notifies_whatever_the_outcome_witness :
  let w := run (H := utc) [ChannelOpens; StartCamera; CameraGranted 1]
             new_CameraManager in
  let w' := captureMood_run (Some ("Happy", 9 # 10)) 5 6 Rejected
              (Some "dashboard") w in
  isStreaming (this w) = true
  ∧ notifications w' = [MoodCaptured "Happy" 90]
  ∧ cameraErrors w' = [].
Proof.
  cbv zeta.
  set (w := run (H := utc) [ChannelOpens; StartCamera; CameraGranted 1]
              new_CameraManager).
  assert (isStreaming (this w) = true) as Hi by reflexivity.
  destruct (capture_notifies_whatever_the_outcome "Happy" (9 # 10) 5 6
              Rejected (Some "dashboard") w Hi) as (_ & Hn & He & _).
  split; [exact Hi|]. split; [exact Hn|exact He].
Defined.

(** X17.  When the analysis request is rejected, the capture ends
    silently: the image was posted, and that is all; no entry is posted,
    nothing is shown (neither notification nor error message) and the
    code logs nothing. *)
Theorem capture_silent_when_analysis_fails (now now' : Z)
    (outcome : FetchOutcome) (mindWellApp : option string) (w : World) :
  isStreaming (this w) = true →
  let w' := captureMood_run None now now' outcome mindWellApp w in
  fetches w' = fetches w ++ [PostAnalyzeEmotion]
  ∧ notifications w' = notifications w
  ∧ cameraErrors w' = cameraErrors w
  ∧ console w' = console w.
Proof.
  intros Hi. cbv zeta. unfold captureMood_run, captureMood. rewrite Hi.
  simpl. split_and!; reflexivity.
Qed.

Lemma capture_silent_when_analysis_fails_witness :
  let w := run (H := utc) [ChannelOpens; StartCamera; CameraGranted 1]
             new_CameraManager in
  let w' := captureMood_run None 5 6 Rejected (Some "dashboard") w in
  fetches w' = [PostAnalyzeEmotion] ∧ notifications w' = [].
Proof.
  cbv zeta.
  set (w := run (H := utc) [ChannelOpens; StartCamera; CameraGranted 1]
              new_CameraManager).
  destruct (capture_silent_when_analysis_fails 5 6 Rejected
              (Some "dashboard") w eq_refl) as (Hf & Hn & _).
  split; [exact Hf|exact Hn].
Defined.

(** ** Icons and emojis *)

Lemma lookup_or_unknown (pairs : list (string * string)) key fallback :
  key ∉ pairs.*1 → key ∉ Object_prototype_keys →
  lookup_or (list_to_map pairs) key fallback = Some fallback.
Proof.
  intros Hk Hp. unfold lookup_or.
  rewrite (not_elem_of_list_to_map_1 (M := gmap string) pairs key) by done.
  by rewrite decide_False.
Qed.

(** X20.  The icon and the emoji agree on what they recognise: for a
    label that is not a key every object inherits, the icon is the
    question mark exactly when the emoji is, exactly when the label is
    not one of the seven known labels, written with that very case
    (["happy"] is not known). *)
Theorem icon_and_emoji_fall_back_together (emotion : string) :
  ordinary emotion →
  (icon_class emotion = Some "fas fa-question" ↔ emotion ∉ EmotionLabels)
  ∧ (emoji emotion = Some "❓" ↔ emotion ∉ EmotionLabels).
Proof.
  intros Hord.
  destruct (decide (emotion ∈ EmotionLabels)) as [Hin|Hout].
  - unfold EmotionLabels in Hin.
    repeat (apply elem_of_cons in Hin as [->|Hin]);
      [..|by apply elem_of_nil in Hin];
      (split; (split; [by vm_compute|intros Hn; destruct Hn; compute_done])).
  - split; (split; [done|intros _]).
    + by apply (lookup_or_unknown _ emotion).
    + by apply (lookup_or_unknown _ emotion).
Qed.

Lemma icon_and_emoji_fall_back_together_witness :
  icon_class "happy" = Some "fas fa-question" ∧ emoji "happy" = Some "❓".
Proof.
  assert (ordinary "happy") as Hord by compute_done.
  assert ("happy" ∉ EmotionLabels) as Hout by compute_done.
  destruct (icon_and_emoji_fall_back_together "happy" Hord) as [Hi He].
  split; [by apply Hi|by apply He].
Defined.
